(** * smartbackend: the irrigation gateway of [server.js]

    A shallow embedding of the MQTT message handler, the pump automation,
    the publish callbacks, the HTTP handlers and the weather refresh of
    [src/server.js], followed by the properties its specification states
    about them.

    Conventions.
    - JavaScript values are the trees [JSON.parse] can produce, plus
      [undefined].  A number is the real value of the double, kept as a
      rational, or one of NaN and the two infinities; there is no negative
      zero. The sums and products of the simulators round to the nearest
      binary64 number ([binary64]); clock readings are integers, and the
      quotient of the cooldown test is kept as the exact rational, which
      gives the test the same answer ([canSendPumpCommand_rounded]).
    - Built-in functions whose result depends on the characters of a
      string or on the digits of a number ([JSON.parse], the parsers
      behind [parseFloat] and [parseInt], the string to number and number
      to string conversions) are the methods of the class [Host]: every
      theorem holds for any host. The conversion of a value to a string,
      which throws on some objects, is defined here.
    - Objects that the program shares by reference (the reading objects and
      the history array) live in a heap; module-level [let] bindings hold
      addresses.
    - A handler is a computation in the monad [M]: it reads and writes the
      program state, appends to a trace of effects (console output, MQTT
      publishes, HTTP responses) and either returns or throws.
    - Clock readings ([new Date()], [Date.now()]) are arguments of the
      handler that takes them, in milliseconds. *)

From Stdlib Require Import ZArith QArith Qround Qpower Qabs Lia Lqa Bool.
From stdpp Require Import base list strings sorting.

(** ** JavaScript values and the operators the program applies to them *)

Module JS.

Inductive number :=
| NaN
| PosInfinity
| NegInfinity
| Finite (q : Q).

#[local] Set Warnings "-register-all".
Inductive value :=
| JUndefined
| JNull
| JBool (b : bool)
| JNum (n : number)
| JStr (s : string)
| JArr (elems : list value)
| JObj (props : list (string * value)).

(** Exceptions the program can meet. [AxiosError] is the rejection of
    [axios.get]: its message and, when the server answered, the status and
    body of the answer ([error.response]). *)
Inductive Exn :=
| SyntaxError
| TypeError
| AxiosError (message : string) (response : option (Z * value)).

(** Expressions that may throw. *)
Definition bindE {A B} (m : Exn + A) (k : A -> Exn + B) : Exn + B :=
  match m with
  | inl e => inl e
  | inr a => k a
  end.

Notation "'get' x <- m ; k" := (bindE m (fun x => k))
  (at level 10, x name, m at level 100, k at level 200).

(** The built-ins whose result depends on the characters of a string or
    on the digits of a number. None of them throws. *)
Class Host := {
  (** [JSON.parse(text)]: [None] when it throws a SyntaxError. *)
  JSON_parse : string -> option value;
  (** What [parseFloat] and [parseInt] make of the string form of their
      argument. *)
  parseFloat_of_string : string -> number;
  parseInt_of_string : string -> number;
  (** ToNumber on a string. *)
  StringToNumber : string -> number;
  (** ToString on a number. *)
  NumberToString : number -> string
}.

Definition of_Z (z : Z) : number := Finite (inject_Z z).

(** ToBoolean: what [if (v)] and [v || w] test. *)
Definition ToBoolean (v : value) : bool :=
  match v with
  | JUndefined | JNull => false
  | JBool b => b
  | JNum NaN => false
  | JNum (Finite q) => negb (Qeq_bool q 0)
  | JNum _ => true
  | JStr s => negb (String.eqb s "")
  | JArr _ | JObj _ => true
  end.

(** [a || b] *)
Definition js_or (a b : value) : value := if ToBoolean a then a else b.

(** [v === 'text'] and [v !== undefined] *)
Definition strict_eq_string (v : value) (s : string) : bool :=
  match v with
  | JStr t => String.eqb t s
  | _ => false
  end.

Definition is_undefined (v : value) : bool :=
  match v with
  | JUndefined => true
  | _ => false
  end.

(** Number::lessThan, with the undefined result (a NaN operand) read as
    false, as the relational operators do. *)
Definition number_lt (a b : number) : bool :=
  match a, b with
  | NaN, _ | _, NaN => false
  | Finite x, Finite y => if Qlt_le_dec x y then true else false
  | NegInfinity, NegInfinity => false
  | NegInfinity, _ => true
  | _, NegInfinity => false
  | PosInfinity, _ => false
  | Finite _, PosInfinity => true
  end.

Definition number_le (a b : number) : bool :=
  match a, b with
  | NaN, _ | _, NaN => false
  | _, _ => negb (number_lt b a)
  end.

(** *** Binary64 arithmetic *)

(** The exponent of a positive rational: the integer part of its binary
    logarithm. *)
Definition Qlog2 (x : Q) : Z :=
  let e := (Z.log2 (Qnum x) - Z.log2 (Zpos (Qden x)))%Z in
  if Qle_bool (2 ^ e) x then e else (e - 1)%Z.

(** The nearest integer, the even one of the two on a tie. *)
Definition round_half_even (y : Q) : Z :=
  let f := Qfloor y in
  match Qcompare (y - inject_Z f) (1 # 2) with
  | Lt => f
  | Gt => (f + 1)%Z
  | Eq => if Z.even f then f else (f + 1)%Z
  end.

(** The distance between the binary64 numbers around [x]: 52 bits below
    the exponent of [x], and that of the subnormal numbers below
    [2^-1022]. *)
Definition ulp (x : Q) : Q := (2 ^ (Z.max (Qlog2 (Qabs x)) (-1022) - 52))%Q.

(** The binary64 number nearest to the real [x], the one with the even
    significand on a tie (roundTiesToEven), in lowest terms; an infinity
    when the rounded magnitude reaches [2^1024]. *)
Definition binary64 (x : Q) : number :=
  if Qeq_bool x 0 then Finite 0 else
  let y := (inject_Z (round_half_even (x / ulp x)) * ulp x)%Q in
  if Qle_bool (2 ^ 1024) y then PosInfinity
  else if Qle_bool y (- 2 ^ 1024) then NegInfinity
  else Finite (Qred y).

(** The sign of a number that is not NaN: -1, 0 or 1. *)
Definition number_sign (a : number) : Z :=
  match a with
  | NaN => 0
  | PosInfinity => 1
  | NegInfinity => -1
  | Finite x => Z.sgn (Qnum x)
  end.

(** Number::add and Number::multiply *)
Definition number_add (a b : number) : number :=
  match a, b with
  | NaN, _ | _, NaN => NaN
  | Finite x, Finite y => binary64 (x + y)
  | PosInfinity, NegInfinity | NegInfinity, PosInfinity => NaN
  | PosInfinity, _ | _, PosInfinity => PosInfinity
  | NegInfinity, _ | _, NegInfinity => NegInfinity
  end.

Definition number_mul (a b : number) : number :=
  match a, b with
  | NaN, _ | _, NaN => NaN
  | Finite x, Finite y => binary64 (x * y)
  | _, _ =>
      match (number_sign a * number_sign b)%Z with
      | Z0 => NaN
      | Zpos _ => PosInfinity
      | Zneg _ => NegInfinity
      end
  end.

(** [Math.floor] *)
Definition Math_floor (a : number) : number :=
  match a with
  | Finite x => of_Z (Qfloor x)
  | _ => a
  end.

(** Whether a parsed object has the own property [k]. *)
Fixpoint has_own (k : string) (props : list (string * value)) : bool :=
  match props with
  | [] => false
  | (k', _) :: rest => String.eqb k k' || has_own k rest
  end.

Section WithHost.
Context `{Host}.

(** ToString, as [String(v)], a template literal, [parseFloat] and
    [parseInt] apply it. On an object it is ToPrimitive: the methods
    [toString] and [valueOf] are looked up and called when callable.
    - A plain object inherits [Object.prototype.toString], which answers
      [[object Object]], and [valueOf], which answers the object itself.
      An own property [toString] of a parsed object is never callable and
      hides the inherited method: the conversion then throws a TypeError.
    - An array has [Array.prototype.toString], which joins the string
      forms of the elements with commas, [null] and [undefined] counting
      as empty; it throws when the conversion of an element throws.
    With the hint number the order of the two methods is the other one,
    and the outcome on these values is the same. *)
Fixpoint ToString (v : value) : Exn + string :=
  match v with
  | JUndefined => inr "undefined"
  | JNull => inr "null"
  | JBool true => inr "true"
  | JBool false => inr "false"
  | JNum n => inr (NumberToString n)
  | JStr s => inr s
  | JObj props =>
      if has_own "toString" props then inl TypeError else inr "[object Object]"
  | JArr elems =>
      (fix join (l : list value) : Exn + string :=
         match l with
         | [] => inr ""
         | x :: rest =>
             get sx <- match x with
                       | JUndefined | JNull => inr ""
                       | _ => ToString x
                       end;
             match rest with
             | [] => inr sx
             | _ => get sr <- join rest; inr (sx ++ "," ++ sr)%string
             end
         end) elems
  end.

(** ToNumber, after ToPrimitive with hint number: the primitive of an
    array or a plain object is its string form. *)
Definition ToNumber (v : value) : Exn + number :=
  match v with
  | JUndefined => inr NaN
  | JNull => inr (of_Z 0)
  | JBool true => inr (of_Z 1)
  | JBool false => inr (of_Z 0)
  | JNum n => inr n
  | JStr s => inr (StringToNumber s)
  | JArr _ | JObj _ => get s <- ToString v; inr (StringToNumber s)
  end.

(** [parseFloat(v)] and [parseInt(v)] *)
Definition parseFloat (v : value) : Exn + number :=
  get s <- ToString v; inr (parseFloat_of_string s).

Definition parseInt (v : value) : Exn + number :=
  get s <- ToString v; inr (parseInt_of_string s).

(** [v > c] and [v < c] for a numeric constant [c]. *)
Definition js_gt (v : value) (c : number) : Exn + bool :=
  get n <- ToNumber v; inr (number_lt c n).

Definition js_lt (v : value) (c : number) : Exn + bool :=
  get n <- ToNumber v; inr (number_lt n c).
End WithHost.

(** Own properties of a parsed object; the list holds each key once. *)
Fixpoint lookup_prop (k : string) (props : list (string * value)) : value :=
  match props with
  | [] => JUndefined
  | (k', v) :: rest => if String.eqb k k' then v else lookup_prop k rest
  end.

(** [v.k] for the property names the program reads (soilMoisture,
    pumpStatus, temperature, humidity, action, main, temp, feels_like,
    weather, description, icon, name, wind, speed): none of them is an own
    or inherited property of an array, a string, a number or a boolean, and
    reading a property of [undefined] or [null] throws. *)
Definition get_prop (v : value) (k : string) : Exn + value :=
  match v with
  | JUndefined | JNull => inl TypeError
  | JObj props => inr (lookup_prop k props)
  | JArr _ | JStr _ | JNum _ | JBool _ => inr JUndefined
  end.

(** [v[0]] *)
Definition get_first (v : value) : Exn + value :=
  match v with
  | JUndefined | JNull => inl TypeError
  | JObj props => inr (lookup_prop "0" props)
  | JArr elems => inr (match elems with x :: _ => x | [] => JUndefined end)
  | JStr s => inr (match s with
                   | String c _ => JStr (String c EmptyString)
                   | EmptyString => JUndefined
                   end)
  | JNum _ | JBool _ => inr JUndefined
  end.

End JS.

Import JS.

(** ** Data of the program *)

(** The object literal of [latestSensorData]. [timestamp] is [null]
    ([None]) in the initial object and a [Date] afterwards. *)
Record SensorData := {
  soilMoisture : value;
  pumpStatus : value;
  temperature : value;
  humidity : value;
  timestamp : option Z
}.

(** The object literal of [latestWeatherData]. *)
Module Weather.
Record t := {
  temperature : value;
  feels_like : value;
  description : value;
  icon : value;
  city : value;
  humidity : value;
  wind_speed : value;
  timestamp : option Z
}.
End Weather.

(** Heap objects: the reading objects and the arrays of references to
    them. An address is an index in the heap; objects are never freed. *)
Definition addr := nat.

Inductive HeapObj :=
| HSensor (r : SensorData)
| HArray (elems : list addr).

(** The module-level [let] bindings. *)
Record State := {
  heap : list HeapObj;
  latestSensorData : addr;
  historicalData : addr;
  lastPumpCommandTime : Z;
  latestWeatherData : Weather.t
}.

Definition set_heap (h : list HeapObj) (st : State) : State :=
  {| heap := h;
     latestSensorData := latestSensorData st;
     historicalData := historicalData st;
     lastPumpCommandTime := lastPumpCommandTime st;
     latestWeatherData := latestWeatherData st |}.

Definition set_latestSensorData (a : addr) (st : State) : State :=
  {| heap := heap st;
     latestSensorData := a;
     historicalData := historicalData st;
     lastPumpCommandTime := lastPumpCommandTime st;
     latestWeatherData := latestWeatherData st |}.

Definition set_lastPumpCommandTime (t : Z) (st : State) : State :=
  {| heap := heap st;
     latestSensorData := latestSensorData st;
     historicalData := historicalData st;
     lastPumpCommandTime := t;
     latestWeatherData := latestWeatherData st |}.

Definition set_latestWeatherData (w : Weather.t) (st : State) : State :=
  {| heap := heap st;
     latestSensorData := latestSensorData st;
     historicalData := historicalData st;
     lastPumpCommandTime := lastPumpCommandTime st;
     latestWeatherData := w |}.

(** Constants of the program. *)
Definition SENSOR_DATA_TOPIC : string := "farm/plot1/sensor_data".
Definition COMMAND_TOPIC : string := "farm/plot1/commands".
Definition MOISTURE_DRY_THRESHOLD : number := of_Z 700.
Definition MOISTURE_WET_THRESHOLD : number := of_Z 400.
Definition PUMP_COOLDOWN_SECONDS : Z := 30.

(** The state when the module has been loaded: the initial reading object
    at address 0, the empty history array at address 1. *)
Definition initial_sensor_data : SensorData :=
  {| soilMoisture := JNull;
     pumpStatus := JStr "OFF";
     temperature := JNull;
     humidity := JNull;
     timestamp := None |}.

Definition initial_weather_data : Weather.t :=
  {| Weather.temperature := JNull;
     Weather.feels_like := JNull;
     Weather.description := JNull;
     Weather.icon := JNull;
     Weather.city := JNull;
     Weather.humidity := JNull;
     Weather.wind_speed := JNull;
     Weather.timestamp := None |}.

Definition initial_state : State :=
  {| heap := [HSensor initial_sensor_data; HArray []];
     latestSensorData := 0;
     historicalData := 1;
     lastPumpCommandTime := 0;
     latestWeatherData := initial_weather_data |}.

(** ** Effects *)

(** The callbacks passed to [client.publish], each with the variables its
    closure captures. *)
Inductive Callback :=
| cb_pump_on (currentTime : Z)
| cb_pump_off (currentTime : Z)
| cb_manual (action : value).

(** Console output, one constructor per call site. *)
Inductive LogLine :=
| log_received (topic : string) (data : value)
| log_turning_on (moisture : value)
| log_turning_off (moisture : value)
| log_within_range (moisture status : value)
| log_cooldown (remainingTime : Z)
| error_publish_on
| error_publish_off
| error_parse (message : string) (e : Exn)
| error_manual_publish
| log_manual_sent (action : value)
| warn_no_api_key
| log_weather_fetched (w : Weather.t)
| error_weather (e : Exn)
| error_weather_response (status : Z) (data : value).

(** Bodies handed to [res.json], which serialises them at once: a body
    holds values, never addresses. *)
Inductive ResBody :=
| body_latest (r : SensorData) (last cooldown : Z) (automationEnabled : bool)
| body_history (readings : list SensorData)
| body_command_sent (action : value)
| body_command_failed
| body_action_required
| body_weather (w : Weather.t).

(** [publish topic payload cb]: [payload] is the object given to
    [JSON.stringify]. *)
Inductive Effect :=
| console (l : LogLine)
| publish (topic : string) (payload : value) (cb : Callback)
| respond (status : Z) (body : ResBody).

(** ** The monad of handlers: state, trace of effects, exceptions *)

Definition M (A : Type) : Type := State -> (Exn + A) * State * list Effect.

Definition ret {A} (a : A) : M A := fun st => (inr a, st, []).

Definition bind {A B} (m : M A) (k : A -> M B) : M B :=
  fun st =>
    match m st with
    | (inl e, st1, out1) => (inl e, st1, out1)
    | (inr a, st1, out1) =>
        match k a st1 with
        | (r, st2, out2) => (r, st2, out1 ++ out2)
        end
    end.

Definition throw {A} (e : Exn) : M A := fun st => (inl e, st, []).

Definition lift {A} (r : Exn + A) : M A := fun st => (r, st, []).

Definition emit (e : Effect) : M unit := fun st => (inr tt, st, [e]).

Definition read {A} (f : State -> A) : M A := fun st => (inr (f st), st, []).

Definition modify (f : State -> State) : M unit := fun st => (inr tt, f st, []).

(** [try { m } catch (e) { handler e }] *)
Definition try_catch {A} (m : M A) (handler : Exn -> M A) : M A :=
  fun st =>
    match m st with
    | (inl e, st1, out1) =>
        match handler e st1 with
        | (r, st2, out2) => (r, st2, out1 ++ out2)
        end
    | (inr a, st1, out1) => (inr a, st1, out1)
    end.

Notation "'do' x <- m ; k" := (bind m (fun x => k))
  (at level 10, x name, m at level 100, k at level 200).
Notation "'exec' m ; k" := (bind m (fun _ => k))
  (at level 10, m at level 100, k at level 200).

(** What a handler run from the event loop leaves behind. *)
Definition result_of {A} (x : (Exn + A) * State * list Effect) : Exn + A := x.1.1.
Definition state_of {A} (x : (Exn + A) * State * list Effect) : State := x.1.2.
Definition trace_of {A} (x : (Exn + A) * State * list Effect) : list Effect := x.2.

(** The commands published in a trace, in order. *)
Definition published (out : list Effect) : list (string * value) :=
  omap (fun e => match e with
                 | publish topic payload _ => Some (topic, payload)
                 | _ => None
                 end) out.

(** ** Heap operations *)

(** An object or array literal: a new object at the next free address. *)
Definition alloc (o : HeapObj) : M addr :=
  fun st => (inr (length (heap st)), set_heap (heap st ++ [o]) st, []).

(** The elements of the array at [a]. *)
Definition array_elems (h : list HeapObj) (a : addr) : list addr :=
  match h !! a with
  | Some (HArray l) => l
  | _ => []
  end.

(** The fields of the reading object at [a]; the fields read from any
    other object are [undefined]. *)
Definition no_sensor_data : SensorData :=
  {| soilMoisture := JUndefined;
     pumpStatus := JUndefined;
     temperature := JUndefined;
     humidity := JUndefined;
     timestamp := None |}.

Definition load_sensor (h : list HeapObj) (a : addr) : SensorData :=
  match h !! a with
  | Some (HSensor r) => r
  | _ => no_sensor_data
  end.

(** [arr = elems] for the array at [a]: every in-place update of an array
    (push, shift, pop, splice, an indexed store) is one of these. *)
Definition array_store (a : addr) (elems : list addr) (h : list HeapObj) : list HeapObj :=
  match h !! a with
  | Some (HArray _) => <[a := HArray elems]> h
  | _ => h
  end.

(** [arr.push(x)], [arr.length], [arr.shift()] *)
Definition array_push (a x : addr) : M unit :=
  modify (fun st => set_heap (array_store a (array_elems (heap st) a ++ [x]) (heap st)) st).

Definition array_length (a : addr) : M nat :=
  read (fun st => length (array_elems (heap st) a)).

Definition array_shift (a : addr) : M unit :=
  modify (fun st => set_heap (array_store a (tail (array_elems (heap st) a)) (heap st)) st).

(** [[...arr]]: a new array with the same elements. *)
Definition spread (a : addr) : M addr :=
  do h <- read heap;
  alloc (HArray (array_elems h a)).

(** What [JSON.stringify] reads of an array of readings: the fields of each
    element, in order. The text it produces is not modelled. *)
Definition readings_at (h : list HeapObj) (a : addr) : list SensorData :=
  map (load_sensor h) (array_elems h a).

(** The history buffer as a reader sees it, oldest first. *)
Definition history (st : State) : list SensorData :=
  readings_at (heap st) (historicalData st).

(** ** The MQTT message handler (server.js, lines 161-219) *)

Section Program.
Context `{Host}.

(** The object literal of lines 168-174. [tDate] is the clock read by
    [new Date()]. The properties of [data] are read in source order;
    the first read throws when [data] is [null], and [parseFloat] and
    [parseInt] throw when their argument has no string form. *)
Definition sensor_literal (data : value) (tDate : Z) : Exn + SensorData :=
  get soil <- get_prop data "soilMoisture";
  get status <- get_prop data "pumpStatus";
  get t <- get_prop data "temperature";
  get temp <- (if negb (is_undefined t)
               then get t' <- get_prop data "temperature";
                    get n <- parseFloat t';
                    inr (JNum n)
               else inr JNull);
  get u <- get_prop data "humidity";
  get hum <- (if negb (is_undefined u)
              then get u' <- get_prop data "humidity";
                   get n <- parseInt u';
                   inr (JNum n)
              else inr JNull);
  inr {| soilMoisture := soil;
         pumpStatus := js_or status (JStr "UNKNOWN");
         temperature := temp;
         humidity := hum;
         timestamp := Some tDate |}.

(** Lines 168-179: the new object becomes [latestSensorData] and is
    pushed on [historicalData]; beyond 200 entries the first is shifted
    out. *)
Definition record_reading (r : SensorData) : M unit :=
  do a <- alloc (HSensor r);
  exec modify (set_latestSensorData a);
  do hd <- read historicalData;
  do latest <- read latestSensorData;
  exec array_push hd latest;
  do n <- array_length hd;
  if (200 <? n)%nat then array_shift hd else ret tt.

(** Line 187: [(currentTime - lastPumpCommandTime) / 1000 >= 30]. *)
Definition canSendPumpCommand (currentTime last : Z) : bool :=
  Qle_bool (inject_Z PUMP_COOLDOWN_SECONDS) (inject_Z (currentTime - last) / 1000).

(** A template literal evaluates ToString on each of its values, in
    order, and throws when one of them throws. *)
Fixpoint template (values : list value) : M unit :=
  match values with
  | [] => ret tt
  | v :: rest => do _ <- lift (ToString v); template rest
  end.

(** Lines 191-208, once the cooldown has elapsed. The comparisons and
    the template literals of the log lines convert the moisture and the
    pump status, and throw when the conversion throws. *)
Definition pump_decision (currentTime : Z)
    (currentSoilMoisture currentPumpStatus : value) : M unit :=
  do dry <- lift (js_gt currentSoilMoisture MOISTURE_DRY_THRESHOLD);
  if dry && strict_eq_string currentPumpStatus "OFF" then
    exec template [currentSoilMoisture];
    exec emit (console (log_turning_on currentSoilMoisture));
    emit (publish COMMAND_TOPIC (JObj [("command", JStr "TURN_PUMP_ON")])
            (cb_pump_on currentTime))
  else
    do wet <- lift (js_lt currentSoilMoisture MOISTURE_WET_THRESHOLD);
    if wet && strict_eq_string currentPumpStatus "ON" then
      exec template [currentSoilMoisture];
      exec emit (console (log_turning_off currentSoilMoisture));
      emit (publish COMMAND_TOPIC (JObj [("command", JStr "TURN_PUMP_OFF")])
              (cb_pump_off currentTime))
    else
      exec template [currentSoilMoisture; currentPumpStatus];
      emit (console (log_within_range currentSoilMoisture currentPumpStatus)).

(** Lines 182-213. [currentTime] is the clock read by [Date.now()]. *)
Definition automation (currentTime : Z) : M unit :=
  do latest <- read latestSensorData;
  do h <- read heap;
  let currentSoilMoisture := soilMoisture (load_sensor h latest) in
  let currentPumpStatus := pumpStatus (load_sensor h latest) in
  do last <- read lastPumpCommandTime;
  if canSendPumpCommand currentTime last then
    pump_decision currentTime currentSoilMoisture currentPumpStatus
  else
    let remainingTime :=
      (PUMP_COOLDOWN_SECONDS - (currentTime - last) / 1000)%Z in
    emit (console (log_cooldown remainingTime)).

(** Line 163: [JSON.parse(message.toString())]. *)
Definition parse (message : string) : M value :=
  match JSON_parse message with
  | Some data => ret data
  | None => throw SyntaxError
  end.

(** Lines 161-219: the whole body of the handler is the [try] block. *)
Definition client_on_message (topic message : string) (tDate currentTime : Z) : M unit :=
  try_catch
    (do data <- parse message;
     exec emit (console (log_received topic data));
     if String.eqb topic SENSOR_DATA_TOPIC then
       do r <- lift (sensor_literal data tDate);
       exec record_reading r;
       automation currentTime
     else ret tt)
    (fun e => emit (console (error_parse message e))).

(** The callbacks of [client.publish] (lines 193-196, 201-204 and
    255-262), run by the MQTT client when the publish has completed:
    [err] is [None] on success. The callback of a manual command builds
    its log line and its answer with template literals that hold the
    action, outside any [try]. *)
Definition publish_callback (cb : Callback) (err : option string) : M unit :=
  match cb with
  | cb_pump_on currentTime =>
      match err with
      | None => modify (set_lastPumpCommandTime currentTime)
      | Some _ => emit (console error_publish_on)
      end
  | cb_pump_off currentTime =>
      match err with
      | None => modify (set_lastPumpCommandTime currentTime)
      | Some _ => emit (console error_publish_off)
      end
  | cb_manual action =>
      match err with
      | Some _ =>
          exec emit (console error_manual_publish);
          emit (respond 500 body_command_failed)
      | None =>
          exec template [action];
          exec emit (console (log_manual_sent action));
          exec template [action];
          emit (respond 200 (body_command_sent action))
      end
  end.

(** ** The HTTP handlers (lines 234-266) *)

Definition app_get_latest : M unit :=
  do latest <- read latestSensorData;
  do h <- read heap;
  do last <- read lastPumpCommandTime;
  emit (respond 200 (body_latest (load_sensor h latest) last PUMP_COOLDOWN_SECONDS true)).

(** [res.json([...historicalData])] *)
Definition app_get_history : M unit :=
  do hd <- read historicalData;
  do copy <- spread hd;
  do h <- read heap;
  emit (respond 200 (body_history (readings_at h copy))).

(** [body] is [req.body]; [now] is the clock read by [Date.now()]. *)
Definition app_post_command (body : value) (now : Z) : M unit :=
  do action <- lift (get_prop body "action");
  if ToBoolean action then
    exec modify (set_lastPumpCommandTime now);
    emit (publish COMMAND_TOPIC (JObj [("command", action)]) (cb_manual action))
  else
    emit (respond 400 body_action_required).

(** ** The weather refresh (lines 271-299) *)

(** How [await axios.get(url)] ends. *)
Inductive AxiosResult :=
| axios_resolved (data : value)
| axios_rejected (message : string) (response : option (Z * value)).

Definition await_axios (result : AxiosResult) : M value :=
  match result with
  | axios_resolved data => ret data
  | axios_rejected message response => throw (AxiosError message response)
  end.

(** The object literal of lines 282-291. *)
Definition weather_literal (data : value) (tDate : Z) : Exn + Weather.t :=
  get main1 <- get_prop data "main";
  get temp <- get_prop main1 "temp";
  get main2 <- get_prop data "main";
  get feels <- get_prop main2 "feels_like";
  get weather1 <- get_prop data "weather";
  get first1 <- get_first weather1;
  get descr <- get_prop first1 "description";
  get weather2 <- get_prop data "weather";
  get first2 <- get_first weather2;
  get icn <- get_prop first2 "icon";
  get name <- get_prop data "name";
  get main3 <- get_prop data "main";
  get hum <- get_prop main3 "humidity";
  get wind <- get_prop data "wind";
  get speed <- get_prop wind "speed";
  inr {| Weather.temperature := temp;
         Weather.feels_like := feels;
         Weather.description := descr;
         Weather.icon := icn;
         Weather.city := name;
         Weather.humidity := hum;
         Weather.wind_speed := speed;
         Weather.timestamp := Some tDate |}.

(** The function resumes after the [await] with the outcome [result] of
    the request; nothing before that point touches the state. *)
Definition fetchWeatherData (api_key : string) (result : AxiosResult) (tDate : Z) : M unit :=
  if String.eqb api_key "" || String.eqb api_key "YOUR_OPENWEATHER_API_KEY" then
    emit (console warn_no_api_key)
  else
    try_catch
      (do data <- await_axios result;
       do w <- lift (weather_literal data tDate);
       exec modify (set_latestWeatherData w);
       emit (console (log_weather_fetched w)))
      (fun error =>
         exec emit (console (error_weather error));
         match error with
         | AxiosError _ (Some (status, data)) =>
             emit (console (error_weather_response status data))
         | _ => ret tt
         end).

Definition app_get_weather : M unit :=
  do w <- read latestWeatherData;
  emit (respond 200 (body_weather w)).

(** ** The event loop *)

Inductive Event :=
| ev_message (topic message : string) (tDate currentTime : Z)
| ev_published (cb : Callback) (err : option string)
| ev_get_latest
| ev_get_history
| ev_post_command (body : value) (now : Z)
| ev_weather (api_key : string) (result : AxiosResult) (tDate : Z)
| ev_get_weather.

Definition handle (e : Event) : M unit :=
  match e with
  | ev_message topic message tDate currentTime =>
      client_on_message topic message tDate currentTime
  | ev_published cb err => publish_callback cb err
  | ev_get_latest => app_get_latest
  | ev_get_history => app_get_history
  | ev_post_command body now => app_post_command body now
  | ev_weather api_key result tDate => fetchWeatherData api_key result tDate
  | ev_get_weather => app_get_weather
  end.

(** Handlers run one at a time, to completion, in arrival order. An
    exception that escapes a handler ends that handler and leaves the state
    as the handler left it: Express answers in the place of a route
    handler that throws, and the program installs no handler for the
    exception that escapes a callback of the MQTT client (the one of a
    manual command whose action has no string form). When the runtime
    ends the process on such an exception, the events of the process are
    those up to that one: what is stated of [run] for every list of events
    holds of that list. *)
Fixpoint run (events : list Event) (st : State) : State * list Effect :=
  match events with
  | [] => (st, [])
  | e :: rest =>
      let r := handle e st in
      let r' := run rest (state_of r) in
      (r'.1, trace_of r ++ r'.2)
  end.

End Program.

(** Recording a sequence of readings, one [record_reading] each. *)
Definition record_all (rs : list SensorData) (st : State) : State :=
  foldl (fun s r => state_of (record_reading r s)) st rs.

(** The history array exists and its entries are addresses of the heap:
    an invariant of every state the program reaches. *)
Definition well_formed (st : State) : Prop :=
  exists l, heap st !! historicalData st = Some (HArray l)
            /\ Forall (fun a => (a < length (heap st))%nat) l.

(** ** Vocabulary of the properties *)

(** Push, then shift when the array has grown beyond 200 entries. *)
Definition push_bounded {A} (l : list A) (x : A) : list A :=
  if (200 <? length (l ++ [x]))%nat then tail (l ++ [x]) else l ++ [x].

(** The commands of the automation, as topic and payload. *)
Definition TURN_PUMP_ON : string * value :=
  (COMMAND_TOPIC, JObj [("command", JStr "TURN_PUMP_ON")]).
Definition TURN_PUMP_OFF : string * value :=
  (COMMAND_TOPIC, JObj [("command", JStr "TURN_PUMP_OFF")]).

Section Decision.
Context `{Host}.

(** What lines 191-208 do for a reading, once the cooldown has elapsed:
    how they end, and their effects. The comparisons throw when the
    moisture has no primitive value; the log line of the last branch
    throws when the pump status has no string form. *)
Definition decision (currentTime : Z) (r : SensorData) : (Exn + unit) * list Effect :=
  match ToNumber (soilMoisture r) with
  | inl e => (inl e, [])
  | inr n =>
      if number_lt MOISTURE_DRY_THRESHOLD n
         && strict_eq_string (pumpStatus r) "OFF" then
        (inr tt,
         [console (log_turning_on (soilMoisture r));
          publish COMMAND_TOPIC (JObj [("command", JStr "TURN_PUMP_ON")])
            (cb_pump_on currentTime)])
      else if number_lt n MOISTURE_WET_THRESHOLD
              && strict_eq_string (pumpStatus r) "ON" then
        (inr tt,
         [console (log_turning_off (soilMoisture r));
          publish COMMAND_TOPIC (JObj [("command", JStr "TURN_PUMP_OFF")])
            (cb_pump_off currentTime)])
      else
        match ToString (pumpStatus r) with
        | inl e => (inl e, [])
        | inr _ =>
            (inr tt, [console (log_within_range (soilMoisture r) (pumpStatus r))])
        end
  end.

(** The effects of the [catch] block of the message handler, after a
    [try] block that ended as [res]. *)
Definition caught (message : string) (res : Exn + unit) : list Effect :=
  match res with
  | inl e => [console (error_parse message e)]
  | inr _ => []
  end.

End Decision.

(** A reading whose evaluation time is within the cooldown of the last
    command. *)
Definition within_cooldown (last : Z) (e : Event) : Prop :=
  match e with
  | ev_message _ _ _ currentTime =>
      (currentTime - last < 1000 * PUMP_COOLDOWN_SECONDS)%Z
  | _ => False
  end.

(** The value of [data.k] when reading it does not throw. *)
Definition field (data : value) (k : string) : value :=
  match get_prop data k with
  | inr v => v
  | inl _ => JUndefined
  end.

(** [null] and [undefined], the values whose properties cannot be read. *)
Definition nullish (v : value) : bool :=
  match v with
  | JUndefined | JNull => true
  | _ => false
  end.

(** The value of [v[0]] when reading it does not throw. *)
Definition first (v : value) : value :=
  match get_first v with
  | inr x => x
  | inl _ => JUndefined
  end.

(** A refresh fails when the request is rejected, or when reading the
    fields of the answer throws. *)
Definition refresh_fails (result : AxiosResult) (tDate : Z) : Prop :=
  match result with
  | axios_rejected _ _ => True
  | axios_resolved data => exists e, weather_literal data tDate = inl e
  end.

Definition is_console (e : Effect) : Prop :=
  match e with
  | console _ => True
  | _ => False
  end.

(** The events other than MQTT messages: HTTP requests, completions of
    publishes and weather refreshes. *)
Definition is_message (e : Event) : bool :=
  match e with
  | ev_message _ _ _ _ => true
  | _ => false
  end.

(** ** Data of the examples *)

Definition dq : string := String (Ascii.ascii_of_nat 34) EmptyString.

(** The text [{"soilMoisture":750,"pumpStatus":"OFF"}] and its value. *)
Definition example_dry_message : string :=
  "{" ++ dq ++ "soilMoisture" ++ dq ++ ":750," ++ dq ++ "pumpStatus" ++ dq
      ++ ":" ++ dq ++ "OFF" ++ dq ++ "}".

Definition example_dry_payload : value :=
  JObj [("soilMoisture", JNum (of_Z 750)); ("pumpStatus", JStr "OFF")].

Definition example_dry_reading (tDate : Z) : SensorData :=
  {| soilMoisture := JNum (of_Z 750);
     pumpStatus := JStr "OFF";
     temperature := JNull;
     humidity := JNull;
     timestamp := Some tDate |}.

(** The payload [{"soilMoisture":500,"pumpStatus":"","temperature":null}]. *)
Definition example_falsy_payload : value :=
  JObj [("soilMoisture", JNum (of_Z 500)); ("pumpStatus", JStr "");
        ("temperature", JNull)].

(** The bodies [{"action":"TURN_PUMP_ON"}] and [{"action":""}]. *)
Definition example_command_body : value := JObj [("action", JStr "TURN_PUMP_ON")].
Definition example_empty_action_body : value := JObj [("action", JStr "")].

(** A host for the closed examples. Its [JSON.parse] knows the one JSON
    text of the examples and rejects every other text, and the examples
    give it no other JSON text. The parsers of numbers are applied, in
    the examples, to the text [null] at most, for which NaN is the
    result, and its numbers all print as [750], the one number that the
    examples print. *)
Definition example_host : Host :=
  {| JSON_parse := fun text =>
       if String.eqb text example_dry_message
       then Some example_dry_payload
       else None;
     parseFloat_of_string := fun _ => NaN;
     parseInt_of_string := fun _ => NaN;
     StringToNumber := fun _ => NaN;
     NumberToString := fun _ => "750" |}.

(** ** Vocabulary of the properties of the event loop *)

Section Accepted.
Context `{Host}.

(** The reading that an event adds to the history: the one built from a
    message on the sensor topic whose payload parses, when building it
    does not throw. *)
Definition accepted_reading (e : Event) : option SensorData :=
  match e with
  | ev_message topic message tDate _ =>
      if String.eqb topic SENSOR_DATA_TOPIC then
        match JSON_parse message with
        | Some data =>
            match sensor_literal data tDate with
            | inr r => Some r
            | inl _ => None
            end
        | None => None
        end
      else None
  | _ => None
  end.

Definition accepted (events : list Event) : list SensorData :=
  omap accepted_reading events.

End Accepted.

(** What the event loop keeps true, [rs] being the readings accepted so
    far: the history array is well formed and holds the last 200 of [rs],
    and [latestSensorData] is the object of the last of them, or the
    initial object. *)
Definition loop_invariant (rs : list SensorData) (st : State) : Prop :=
  well_formed st
  /\ (latestSensorData st < length (heap st))%nat
  /\ history st = drop (length rs - 200) rs
  /\ load_sensor (heap st) (latestSensorData st)
     = default initial_sensor_data (last rs).

(** Line 273: the key with which a refresh goes ahead. *)
Definition api_key_usable (api_key : string) : bool :=
  negb (String.eqb api_key "" || String.eqb api_key "YOUR_OPENWEATHER_API_KEY").

(** The weather snapshot after an event, [w] being the one before. *)
Definition weather_after (w : Weather.t) (e : Event) : Weather.t :=
  match e with
  | ev_weather api_key (axios_resolved data) tDate =>
      if api_key_usable api_key then
        match weather_literal data tDate with
        | inr w' => w'
        | inl _ => w
        end
      else w
  | _ => w
  end.

(** The time of the last command after an event, [last] being the one
    before. *)
Definition command_time_after (last : Z) (e : Event) : Z :=
  match e with
  | ev_published (cb_pump_on currentTime) None
  | ev_published (cb_pump_off currentTime) None => currentTime
  | ev_post_command body now =>
      match get_prop body "action" with
      | inr action => if ToBoolean action then now else last
      | inl _ => last
      end
  | _ => last
  end.

(** The HTTP responses of a trace, in order. *)
Definition responses (out : list Effect) : list (Z * ResBody) :=
  omap (fun e => match e with
                 | respond status body => Some (status, body)
                 | _ => None
                 end) out.

(** The clock that a message event read with [new Date()]. *)
Definition event_date (e : Event) : option Z :=
  match e with
  | ev_message _ _ tDate _ => Some tDate
  | _ => None
  end.

(** The clock read by a message from which a reading is built. *)
Definition accepted_date `{Host} (e : Event) : option Z :=
  match accepted_reading e with
  | Some _ => event_date e
  | None => None
  end.

(** ** The sensor simulators (lines 317-343 and 344-375)

    Each simulator publishes, every five seconds, the text of an object
    on the sensor topic. The functions below build that object from the
    results of the calls of [Math.random()], which are binary64 numbers
    of the interval from 0 (included) to 1 (excluded), in the order of
    the calls. *)

Section Simulators.

(** [x.toFixed(1)] *)
Variable toFixed1 : number -> string.

(** Lines 328-330. *)
Definition simulator1_payload (random1 random2 : Q) : value :=
  let soilMoisture := Math_floor (number_mul (Finite random1) (of_Z 100)) in
  let pumpStatus :=
    if number_lt (Finite (1 # 2)) (Finite random2) then "ON" else "OFF" in
  JObj [("soilMoisture", JNum soilMoisture); ("pumpStatus", JStr pumpStatus)].

(** Lines 355-362. *)
Definition simulator2_payload (random1 random2 random3 : Q) : value :=
  let soilMoisture :=
    number_add
      (Math_floor (number_mul (Finite random1) (of_Z (900 - 300 + 1))))
      (of_Z 300) in
  let pumpStatus :=
    if number_lt (of_Z 700) soilMoisture then "ON" else "OFF" in
  let temperature :=
    toFixed1 (number_add (number_mul (Finite random2) (of_Z (35 - 15)))
                (of_Z 15)) in
  let humidity :=
    number_add
      (Math_floor (number_mul (Finite random3) (of_Z (95 - 40 + 1))))
      (of_Z 40) in
  JObj [("soilMoisture", JNum soilMoisture); ("pumpStatus", JStr pumpStatus);
        ("temperature", JStr temperature); ("humidity", JNum humidity)].

End Simulators.

(** ** Data of the further examples *)

(** A host whose [JSON.parse] knows one text, with the value it stands
    for, and rejects every other text. Its parsers of numbers are right
    on the texts [23.4] and [68], which is all the examples give them,
    and its numbers all print as [68], which no example looks at except
    for the number 68. *)
Definition host_parsing (text : string) (v : value) : Host :=
  {| JSON_parse := fun t => if String.eqb t text then Some v else None;
     parseFloat_of_string := fun s =>
       if String.eqb s "23.4" then Finite (234 # 10) else NaN;
     parseInt_of_string := fun s =>
       if String.eqb s "68" then of_Z 68 else NaN;
     StringToNumber := fun _ => NaN;
     NumberToString := fun _ => "68" |}.

(** The text [{"soilMoisture":null,"pumpStatus":"ON"}] and its value. *)
Definition example_null_message : string :=
  "{" ++ dq ++ "soilMoisture" ++ dq ++ ":null," ++ dq ++ "pumpStatus" ++ dq
      ++ ":" ++ dq ++ "ON" ++ dq ++ "}".

Definition example_null_payload : value :=
  JObj [("soilMoisture", JNull); ("pumpStatus", JStr "ON")].

(** The text [{"soilMoisture":{"toString":1},"pumpStatus":"OFF"}] and
    its value. *)
Definition example_object_message : string :=
  "{" ++ dq ++ "soilMoisture" ++ dq ++ ":{" ++ dq ++ "toString" ++ dq
      ++ ":1}," ++ dq ++ "pumpStatus" ++ dq ++ ":" ++ dq ++ "OFF" ++ dq ++ "}".

Definition example_object_payload : value :=
  JObj [("soilMoisture", JObj [("toString", JNum (of_Z 1))]);
        ("pumpStatus", JStr "OFF")].

(** The text [{"soilMoisture":25,"pumpStatus":"ON"}], which the first
    simulator publishes for the random numbers 1/4 and 3/4. *)
Definition example_simulator1_message : string :=
  "{" ++ dq ++ "soilMoisture" ++ dq ++ ":25," ++ dq ++ "pumpStatus" ++ dq
      ++ ":" ++ dq ++ "ON" ++ dq ++ "}".

(** The text
    [{"soilMoisture":600,"pumpStatus":"OFF","temperature":"23.4","humidity":68}],
    which the second simulator publishes for the random numbers 1/2,
    27/64 and 1/2. *)
Definition example_simulator2_message : string :=
  "{" ++ dq ++ "soilMoisture" ++ dq ++ ":600," ++ dq ++ "pumpStatus" ++ dq
      ++ ":" ++ dq ++ "OFF" ++ dq ++ "," ++ dq ++ "temperature" ++ dq ++ ":"
      ++ dq ++ "23.4" ++ dq ++ "," ++ dq ++ "humidity" ++ dq ++ ":68}".

(** [x.toFixed(1)] on the one number of the examples, 23.4375. *)
Definition example_toFixed1 (x : number) : string := "23.4".

(** A malformed answer of the weather service: [main], [weather[0]] and
    [wind] are there, and empty. *)
Definition example_incomplete_answer : value :=
  JObj [("main", JObj []); ("weather", JArr [JObj []]); ("wind", JObj [])].

(** An answer of the weather service, cut down to four fields. *)
Definition example_weather_answer : value :=
  JObj [("main", JObj [("temp", JNum (of_Z 21))]);
        ("weather", JArr [JObj [("description", JStr "clear sky")]]);
        ("wind", JObj [("speed", JNum (of_Z 3))]);
        ("name", JStr "Nairobi")].

(** * Properties *)

(** Case analysis on the condition of the first conditional of the goal. *)
Ltac case_if :=
  match goal with
  | |- context [if ?c then _ else _] => destruct c eqn:?
  end.

(** ** Arithmetic of the cooldown test *)

Lemma canSendPumpCommand_spec currentTime last :
  canSendPumpCommand currentTime last
  = (1000 * PUMP_COOLDOWN_SECONDS <=? currentTime - last)%Z.
Proof.
  unfold canSendPumpCommand, PUMP_COOLDOWN_SECONDS.
  set (d := (currentTime - last)%Z).
  destruct (Z.leb_spec (1000 * 30) d) as [Hd|Hd].
  - apply Qle_bool_iff. apply Qle_shift_div_l; [reflexivity|].
    unfold Qle; simpl. lia.
  - destruct (Qle_bool (inject_Z 30) (inject_Z d / 1000)) eqn:E; [|reflexivity].
    apply Qle_bool_iff in E. exfalso. revert E. apply Qlt_not_le.
    apply Qlt_shift_div_r; [reflexivity|]. unfold Qlt; simpl. lia.
Qed.

Lemma canSendPumpCommand_elapsed currentTime last :
  canSendPumpCommand currentTime last = true <-> (30000 <= currentTime - last)%Z.
Proof.
  rewrite canSendPumpCommand_spec. unfold PUMP_COOLDOWN_SECONDS.
  rewrite Z.leb_le. lia.
Qed.


(** ** The heap *)

Lemma array_store_length a elems h : length (array_store a elems h) = length h.
Proof.
  unfold array_store. destruct (h !! a) as [[r|l]|]; auto.
  apply length_insert.
Qed.

Lemma array_store_lookup_ne a b elems h :
  a <> b -> array_store a elems h !! b = h !! b.
Proof.
  intros Hab. unfold array_store. destruct (h !! a) as [[r|l]|]; auto.
  now apply list_lookup_insert_ne.
Qed.

(** An array update never touches a reading object. *)
Lemma load_sensor_array_store a b elems h :
  load_sensor (array_store a elems h) b = load_sensor h b.
Proof.
  unfold load_sensor. destruct (decide (a = b)) as [->|Hab].
  - unfold array_store. destruct (h !! b) as [[r|l]|] eqn:E; rewrite ?E; auto.
    rewrite list_lookup_insert_eq; [reflexivity|].
    now apply lookup_lt_Some in E.
  - now rewrite array_store_lookup_ne.
Qed.

Lemma array_elems_array_store_eq a elems h l :
  h !! a = Some (HArray l) -> array_elems (array_store a elems h) a = elems.
Proof.
  intros E. unfold array_elems, array_store. rewrite E.
  rewrite list_lookup_insert_eq; [reflexivity|].
  now apply lookup_lt_Some in E.
Qed.

Lemma array_elems_array_store_ne a b elems h :
  a <> b -> array_elems (array_store a elems h) b = array_elems h b.
Proof.
  intros Hab. unfold array_elems. now rewrite array_store_lookup_ne.
Qed.

Lemma load_sensor_app_l h t a :
  (a < length h)%nat -> load_sensor (h ++ t) a = load_sensor h a.
Proof.
  intros Ha. unfold load_sensor. now rewrite lookup_app_l.
Qed.

Lemma load_sensor_alloc h r : load_sensor (h ++ [HSensor r]) (length h) = r.
Proof.
  unfold load_sensor. now rewrite list_lookup_middle.
Qed.

Lemma array_elems_app_l h t a :
  (a < length h)%nat -> array_elems (h ++ t) a = array_elems h a.
Proof.
  intros Ha. unfold array_elems. now rewrite lookup_app_l.
Qed.

(** ** Recording a reading *)

Lemma record_reading_unfold r st :
  record_reading r st =
  let a := length (heap st) in
  let h1 := heap st ++ [HSensor r] in
  let hd := historicalData st in
  let h2 := array_store hd (array_elems h1 hd ++ [a]) h1 in
  let h3 := if (200 <? length (array_elems h2 hd))%nat
            then array_store hd (tail (array_elems h2 hd)) h2
            else h2 in
  (inr tt, set_heap h3 (set_latestSensorData a st), []).
Proof.
  unfold record_reading, array_push, array_length, array_shift.
  unfold bind, alloc, modify, read, ret.
  cbn -[Nat.ltb array_store array_elems].
  case_if; case_if; try reflexivity; exfalso;
    eapply eq_true_false_abs; eassumption.
Qed.

Lemma record_reading_returns r st :
  result_of (record_reading r st) = inr tt /\ trace_of (record_reading r st) = [].
Proof. rewrite record_reading_unfold. split; reflexivity. Qed.

Lemma record_reading_roots r st :
  let st' := state_of (record_reading r st) in
  historicalData st' = historicalData st
  /\ lastPumpCommandTime st' = lastPumpCommandTime st
  /\ latestWeatherData st' = latestWeatherData st
  /\ latestSensorData st' = length (heap st).
Proof. rewrite record_reading_unfold. repeat split; reflexivity. Qed.

(** The new object is the latest reading. *)
Lemma record_reading_latest r st :
  let st' := state_of (record_reading r st) in
  load_sensor (heap st') (latestSensorData st') = r.
Proof.
  rewrite record_reading_unfold. cbv zeta. unfold state_of; cbn [fst snd].
  case_if; cbn [heap set_heap latestSensorData set_latestSensorData];
    rewrite ?load_sensor_array_store; apply load_sensor_alloc.
Qed.

Lemma record_reading_history r st :
  well_formed st ->
  let st' := state_of (record_reading r st) in
  well_formed st' /\ history st' = push_bounded (history st) r.
Proof.
  intros (l & Hl & Hall). rewrite record_reading_unfold.
  cbv zeta. unfold state_of; cbn [fst snd].
  pose proof (lookup_lt_Some _ _ _ Hl) as Hhd.
  set (hd := historicalData st) in *.
  set (h1 := heap st ++ [HSensor r]).
  assert (Hl1 : h1 !! hd = Some (HArray l))
    by (unfold h1; rewrite lookup_app_l; auto).
  assert (E1 : array_elems h1 hd = l) by (unfold array_elems; now rewrite Hl1).
  rewrite E1.
  set (l2 := l ++ [length (heap st)]).
  set (h2 := array_store hd l2 h1).
  assert (E2 : array_elems h2 hd = l2)
    by (unfold h2; eapply array_elems_array_store_eq; eauto).
  assert (Hl2 : h2 !! hd = Some (HArray l2)).
  { unfold h2, array_store. rewrite Hl1.
    apply list_lookup_insert_eq. unfold h1. rewrite length_app. cbn. lia. }
  assert (Hlen2 : length h2 = S (length (heap st))).
  { unfold h2. rewrite array_store_length. unfold h1.
    rewrite length_app. cbn. lia. }
  assert (Hall2 : Forall (fun a => (a < S (length (heap st)))%nat) l2).
  { unfold l2. apply Forall_app. split.
    - eapply Forall_impl; [exact Hall|]. cbn. intros; lia.
    - repeat constructor. }
  assert (Hload : forall a, (a < length (heap st))%nat ->
                            load_sensor h1 a = load_sensor (heap st) a)
    by (intros; unfold h1; now apply load_sensor_app_l).
  assert (Hmap : map (load_sensor h1) l2 = history st ++ [r]).
  { unfold l2, history, readings_at. fold hd.
    replace (array_elems (heap st) hd) with l
      by (unfold array_elems; now rewrite Hl).
    rewrite map_app. cbn. f_equal.
    - apply map_ext_in. intros a Ha. apply Hload.
      rewrite Forall_forall in Hall. apply Hall.
      now apply list_elem_of_In.
    - unfold h1. now rewrite load_sensor_alloc. }
  rewrite E2. unfold push_bounded.
  replace (length (history st ++ [r])) with (length l2)
    by (rewrite <- Hmap; now rewrite length_map).
  destruct (200 <? length l2)%nat.
  - split.
    + exists (tail l2). unfold well_formed; cbn. split.
      * unfold array_store. rewrite Hl2.
        apply list_lookup_insert_eq. now apply lookup_lt_Some in Hl2.
      * rewrite array_store_length, Hlen2.
        destruct l2; [constructor|]. cbn. now inversion Hall2.
    + rewrite <- Hmap. unfold history, readings_at.
      cbn [heap set_heap historicalData set_latestSensorData]. fold hd.
      erewrite array_elems_array_store_eq by eauto.
      rewrite tl_map.
      apply map_ext. intros a. unfold h2.
      now rewrite !load_sensor_array_store.
  - split.
    + exists l2. unfold well_formed; cbn. split; [exact Hl2|].
      now rewrite Hlen2.
    + rewrite <- Hmap. unfold history, readings_at.
      cbn [heap set_heap historicalData set_latestSensorData]. fold hd.
      rewrite E2. apply map_ext. intros a. unfold h2.
      now rewrite load_sensor_array_store.
Qed.

Lemma tail_drop {A} (n : nat) (l : list A) : tail (drop n l) = drop (S n) l.
Proof.
  revert l. induction n as [|n IH]; intros [|x l]; cbn; auto.
Qed.

(** Pushing on the last 200 of [rs] leaves the last 200 of [rs ++ [r]]. *)
Lemma push_bounded_drop {A} (rs : list A) r :
  push_bounded (drop (length rs - 200) rs) r
  = drop (length (rs ++ [r]) - 200) (rs ++ [r]).
Proof.
  unfold push_bounded. rewrite !length_app, length_drop.
  change (length [r]) with 1%nat.
  destruct (Nat.ltb_spec 200 (length rs - (length rs - 200) + 1)) as [Hlt|Hge].
  - assert (Hn : (200 <= length rs)%nat) by lia.
    replace (length rs + 1 - 200)%nat with (S (length rs - 200)) by lia.
    rewrite <- drop_app_le by lia. apply tail_drop.
  - replace (length rs + 1 - 200)%nat with 0%nat by lia.
    replace (length rs - 200)%nat with 0%nat by lia.
    reflexivity.
Qed.

Lemma initial_state_well_formed : well_formed initial_state.
Proof. exists []. split; [reflexivity|constructor]. Qed.

Lemma record_all_snoc rs r st :
  record_all (rs ++ [r]) st = state_of (record_reading r (record_all rs st)).
Proof. unfold record_all. now rewrite foldl_snoc. Qed.

Lemma record_all_well_formed rs st :
  well_formed st -> well_formed (record_all rs st).
Proof.
  intros Hwf. induction rs as [|r rs IH] using rev_ind; [exact Hwf|].
  rewrite record_all_snoc. now apply record_reading_history.
Qed.

Lemma record_all_history rs :
  history (record_all rs initial_state) = drop (length rs - 200) rs.
Proof.
  induction rs as [|r rs IH] using rev_ind; [reflexivity|].
  rewrite record_all_snoc.
  pose proof (record_all_well_formed rs _ initial_state_well_formed) as Hwf.
  destruct (record_reading_history r _ Hwf) as [_ ->].
  rewrite IH. apply push_bounded_drop.
Qed.

(** C4. Starting from the empty history of a fresh process, after any
    sequence [rs] of recorded readings the history buffer holds
    [min (length rs) 200] readings: all of [rs] while there are at most
    200, and from then on exactly the last 200 of [rs], in arrival order,
    oldest first. *)
Theorem C4_history_keeps_last_200 (rs : list SensorData) :
  let st := record_all rs initial_state in
  length (history st) = Nat.min (length rs) 200
  /\ history st = drop (length rs - 200) rs
  /\ ((200 < length rs)%nat ->
      length (history st) = 200%nat
      /\ forall i, (i < 200)%nat ->
                   history st !! i = rs !! (length rs - 200 + i)%nat).
Proof.
  cbv zeta. rewrite record_all_history. split; [|split].
  - rewrite length_drop. lia.
  - reflexivity.
  - intros Hn. split; [rewrite length_drop; lia|].
    intros i Hi. now rewrite lookup_drop.
Qed.

(** ** The automation *)

Section Automation.
Context `{Host}.

(** A value that has a number has a string form. *)
Lemma ToNumber_ToString v n : ToNumber v = inr n -> exists s, ToString v = inr s.
Proof.
  destruct v as [| |[|]|m|s|elems|props]; try (intros _; eexists; reflexivity).
  - unfold ToNumber. destruct (ToString (JArr elems)) as [e|s]; [discriminate 1|].
    intros _. now exists s.
  - unfold ToNumber. destruct (ToString (JObj props)) as [e|s]; [discriminate 1|].
    intros _. now exists s.
Qed.

(** The decision neither reads nor writes the state. *)
Lemma pump_decision_unfold currentTime r st :
  pump_decision currentTime (soilMoisture r) (pumpStatus r) st
  = ((decision currentTime r).1, st, (decision currentTime r).2).
Proof.
  unfold pump_decision, decision, js_gt, js_lt, bind, lift.
  destruct (ToNumber (soilMoisture r)) as [e|n] eqn:Hnum; [reflexivity|].
  destruct (ToNumber_ToString _ _ Hnum) as [s Hs].
  cbn [bindE]. cbv beta iota.
  destruct (number_lt MOISTURE_DRY_THRESHOLD n && _).
  { unfold template, bind, lift, ret, emit. rewrite Hs. reflexivity. }
  cbn [bindE]. cbv beta iota.
  destruct (number_lt n MOISTURE_WET_THRESHOLD && _).
  { unfold template, bind, lift, ret, emit. rewrite Hs. reflexivity. }
  unfold template, bind, lift, ret, emit. rewrite Hs. cbv beta iota.
  destruct (ToString (pumpStatus r)); reflexivity.
Qed.

Lemma automation_unfold currentTime st :
  automation currentTime st =
  let r := load_sensor (heap st) (latestSensorData st) in
  let last := lastPumpCommandTime st in
  if canSendPumpCommand currentTime last
  then ((decision currentTime r).1, st, (decision currentTime r).2)
  else (inr tt, st,
        [console (log_cooldown (PUMP_COOLDOWN_SECONDS - (currentTime - last) / 1000)%Z)]).
Proof.
  unfold automation, bind, read. cbv zeta beta iota.
  destruct (canSendPumpCommand _ _).
  - rewrite pump_decision_unfold. destruct (decision _ _) as [[e|[]] out]; reflexivity.
  - reflexivity.
Qed.

Lemma automation_state currentTime st : state_of (automation currentTime st) = st.
Proof.
  rewrite automation_unfold. cbv zeta. now destruct (canSendPumpCommand _ _).
Qed.

(** The handler on the sensor topic, for a payload that parses and from
    which the reading [r] is built: [r] is recorded, then the automation
    runs; when it throws, the [catch] block logs. *)
Lemma client_on_message_accepted message data r tDate currentTime st :
  JSON_parse message = Some data ->
  sensor_literal data tDate = inr r ->
  client_on_message SENSOR_DATA_TOPIC message tDate currentTime st =
  let st1 := state_of (record_reading r st) in
  let res := automation currentTime st1 in
  (inr tt, st1,
   console (log_received SENSOR_DATA_TOPIC data)
     :: trace_of res ++ caught message (result_of res)).
Proof.
  intros Hparse Hlit.
  pose proof (record_reading_unfold r st) as Hrec. cbv zeta in Hrec.
  unfold client_on_message, try_catch, bind, parse. rewrite Hparse.
  unfold ret, emit.
  change (String.eqb SENSOR_DATA_TOPIC SENSOR_DATA_TOPIC) with true.
  cbv iota. unfold lift. rewrite Hlit. cbv beta iota zeta.
  rewrite Hrec. cbv beta iota zeta.
  unfold state_of, trace_of, result_of, caught. cbn [fst snd].
  set (st1 := set_heap _ _).
  pose proof (automation_state currentTime st1) as Hst.
  unfold state_of in Hst.
  destruct (automation currentTime st1) as [[[e|[]] st2] out];
    cbn [fst snd] in *; subst st2; cbn [app]; rewrite ?app_nil_r; reflexivity.
Qed.

(** A message whose payload does not parse, or from which no reading
    can be built, ends in the [catch] block. *)
Lemma client_on_message_unparsable topic message tDate currentTime st :
  JSON_parse message = None ->
  client_on_message topic message tDate currentTime st =
  (inr tt, st, [console (error_parse message SyntaxError)]).
Proof.
  intros Hparse.
  unfold client_on_message, try_catch, bind, parse. rewrite Hparse.
  reflexivity.
Qed.

Lemma client_on_message_no_reading message data e tDate currentTime st :
  JSON_parse message = Some data ->
  sensor_literal data tDate = inl e ->
  client_on_message SENSOR_DATA_TOPIC message tDate currentTime st =
  (inr tt, st,
   [console (log_received SENSOR_DATA_TOPIC data);
    console (error_parse message e)]).
Proof.
  intros Hparse Hlit.
  unfold client_on_message, try_catch, bind, parse. rewrite Hparse.
  unfold ret, emit.
  change (String.eqb SENSOR_DATA_TOPIC SENSOR_DATA_TOPIC) with true.
  cbv iota. unfold lift. rewrite Hlit. reflexivity.
Qed.

Lemma client_on_message_other_topic topic message data tDate currentTime st :
  JSON_parse message = Some data ->
  String.eqb topic SENSOR_DATA_TOPIC = false ->
  client_on_message topic message tDate currentTime st =
  (inr tt, st, [console (log_received topic data)]).
Proof.
  intros Hparse Htopic.
  unfold client_on_message, try_catch, bind, parse. rewrite Hparse.
  unfold ret, emit. rewrite Htopic. reflexivity.
Qed.

End Automation.

(** ** Commands published by the message handler *)

Lemma number_le_not_lt a b : number_le a b = true -> number_lt b a = false.
Proof.
  unfold number_le. destruct a, b; try discriminate;
    intros E; now apply negb_true_iff in E.
Qed.

Lemma strict_eq_string_true v s : strict_eq_string v s = true <-> v = JStr s.
Proof.
  unfold strict_eq_string. split.
  - destruct v; try discriminate. intros E. apply String.eqb_eq in E. now subst.
  - intros ->. apply String.eqb_refl.
Qed.

Lemma published_app out1 out2 :
  published (out1 ++ out2) = published out1 ++ published out2.
Proof. apply omap_app. Qed.

Section Commands.
Context `{Host}.

Lemma published_decision currentTime r :
  published (decision currentTime r).2 =
  match ToNumber (soilMoisture r) with
  | inl _ => []
  | inr n =>
      if number_lt MOISTURE_DRY_THRESHOLD n
         && strict_eq_string (pumpStatus r) "OFF" then [TURN_PUMP_ON]
      else if number_lt n MOISTURE_WET_THRESHOLD
              && strict_eq_string (pumpStatus r) "ON" then [TURN_PUMP_OFF]
      else []
  end.
Proof.
  unfold decision.
  destruct (ToNumber _) as [e|n]; [reflexivity|].
  destruct (number_lt MOISTURE_DRY_THRESHOLD n && _); [reflexivity|].
  destruct (number_lt n MOISTURE_WET_THRESHOLD && _); [reflexivity|].
  destruct (ToString _); reflexivity.
Qed.

(** The [catch] block publishes nothing. *)
Lemma published_caught message res : published (caught message res) = [].
Proof. destruct res; reflexivity. Qed.

(** The trace of the automation in the state that recording [r] leaves. *)
Lemma automation_after_record r currentTime st :
  let res := automation currentTime (state_of (record_reading r st)) in
  result_of res
  = (if canSendPumpCommand currentTime (lastPumpCommandTime st)
     then (decision currentTime r).1 else inr tt)
  /\ trace_of res
     = (if canSendPumpCommand currentTime (lastPumpCommandTime st)
        then (decision currentTime r).2
        else [console (log_cooldown
                         (PUMP_COOLDOWN_SECONDS
                          - (currentTime - lastPumpCommandTime st) / 1000)%Z)]).
Proof.
  cbv zeta. rewrite automation_unfold. cbv zeta.
  pose proof (record_reading_roots r st) as (_ & -> & _ & _).
  rewrite record_reading_latest.
  destruct (canSendPumpCommand _ _); split; reflexivity.
Qed.

(** The commands published for an accepted reading. *)
Lemma published_accepted message data r tDate currentTime st :
  JSON_parse message = Some data ->
  sensor_literal data tDate = inr r ->
  published (trace_of (client_on_message SENSOR_DATA_TOPIC message tDate currentTime st))
  = if canSendPumpCommand currentTime (lastPumpCommandTime st)
    then published (decision currentTime r).2
    else [].
Proof.
  intros Hparse Hlit.
  rewrite (client_on_message_accepted _ _ _ _ _ _ Hparse Hlit).
  cbv zeta. unfold trace_of at 1. cbn [snd].
  destruct (automation_after_record r currentTime st) as [_ ->].
  change (published (?x :: ?l)) with (published l).
  rewrite published_app, published_caught, app_nil_r.
  destruct (canSendPumpCommand _ _); reflexivity.
Qed.

(** The handler never touches [lastPumpCommandTime] or the weather
    snapshot, and always returns. *)
Lemma client_on_message_frame topic message tDate currentTime st :
  let res := client_on_message topic message tDate currentTime st in
  result_of res = inr tt
  /\ lastPumpCommandTime (state_of res) = lastPumpCommandTime st
  /\ latestWeatherData (state_of res) = latestWeatherData st
  /\ historicalData (state_of res) = historicalData st.
Proof.
  cbv zeta.
  destruct (JSON_parse message) as [data|] eqn:Hparse.
  2:{ rewrite client_on_message_unparsable by assumption. now repeat split. }
  destruct (String.eqb topic SENSOR_DATA_TOPIC) eqn:Htopic.
  2:{ erewrite client_on_message_other_topic by eassumption. now repeat split. }
  apply String.eqb_eq in Htopic. subst topic.
  destruct (sensor_literal data tDate) as [e|r] eqn:Hlit.
  { erewrite client_on_message_no_reading by eassumption. now repeat split. }
  erewrite client_on_message_accepted by eassumption.
  cbv zeta. unfold result_of, state_of. cbn [fst snd].
  pose proof (record_reading_roots r st) as (Hhd & Hlast & Hw & _).
  unfold state_of in *. now repeat split.
Qed.

(** A publish in the trace of the handler comes from an accepted reading
    evaluated with the cooldown elapsed. *)
Lemma client_on_message_publish_inv topic message tDate currentTime st payload cb :
  In (publish COMMAND_TOPIC payload cb)
     (trace_of (client_on_message topic message tDate currentTime st)) ->
  exists data r,
    topic = SENSOR_DATA_TOPIC
    /\ JSON_parse message = Some data
    /\ sensor_literal data tDate = inr r
    /\ canSendPumpCommand currentTime (lastPumpCommandTime st) = true
    /\ In (publish COMMAND_TOPIC payload cb) (decision currentTime r).2.
Proof.
  destruct (JSON_parse message) as [data|] eqn:Hparse.
  2:{ rewrite client_on_message_unparsable by assumption.
      cbn. intros [E|[]]. discriminate E. }
  destruct (String.eqb topic SENSOR_DATA_TOPIC) eqn:Htopic.
  2:{ erewrite client_on_message_other_topic by eassumption.
      cbn. intros [E|[]]. discriminate E. }
  apply String.eqb_eq in Htopic. subst topic.
  destruct (sensor_literal data tDate) as [e|r] eqn:Hlit.
  { erewrite client_on_message_no_reading by eassumption.
    cbn. intros [E|[E|[]]]; discriminate E. }
  erewrite client_on_message_accepted by eassumption.
  cbv zeta. unfold trace_of at 1. cbn [snd].
  destruct (automation_after_record r currentTime st) as [_ ->].
  intros [E|Hin]; [discriminate E|].
  apply in_app_or in Hin as [Hin|Hin].
  2:{ exfalso. destruct (result_of _); [|contradiction].
      destruct Hin as [E|[]]. discriminate E. }
  exists data, r. repeat split; auto.
  - destruct (canSendPumpCommand _ _); [reflexivity|].
    destruct Hin as [E|[]]. discriminate E.
  - destruct (canSendPumpCommand _ _); [assumption|].
    destruct Hin as [E|[]]. discriminate E.
Qed.

(** The reading built from a payload depends on the clock only through
    its timestamp. *)
Lemma sensor_literal_clock data t t' r :
  sensor_literal data t = inr r ->
  exists r', sensor_literal data t' = inr r'
             /\ soilMoisture r' = soilMoisture r
             /\ pumpStatus r' = pumpStatus r.
Proof.
  unfold sensor_literal.
  destruct (get_prop data "soilMoisture") as [e|soil]; [discriminate 1|].
  destruct (get_prop data "pumpStatus") as [e|status]; [discriminate 1|].
  destruct (get_prop data "temperature") as [e|tv]; [discriminate 1|].
  cbn [bindE].
  destruct (if negb (is_undefined tv) then _ else _) as [e|temp];
    [discriminate 1|].
  destruct (get_prop data "humidity") as [e|hv]; [discriminate 1|].
  cbn [bindE].
  destruct (if negb (is_undefined hv) then _ else _) as [e|hum];
    [discriminate 1|].
  cbn [bindE].
  intros [= <-]; eexists; (split; [reflexivity|split; reflexivity]).
Qed.

End Commands.

Section Controller.
Context `{Host}.

(** C1. For an accepted reading evaluated with the cooldown elapsed, the
    handler publishes exactly the command TURN_PUMP_ON when the moisture
    is above the dry threshold and the reported pump status is OFF,
    exactly the command TURN_PUMP_OFF when the moisture is below the wet
    threshold and the reported pump status is ON, and nothing in every
    other case, which includes a moisture that cannot be compared; in
    particular it publishes nothing when the moisture lies in the closed
    band between the two thresholds, whatever the reported pump status. *)
Theorem C1_automation_commands message data r tDate currentTime st :
  JSON_parse message = Some data ->
  sensor_literal data tDate = inr r ->
  (1000 * PUMP_COOLDOWN_SECONDS <= currentTime - lastPumpCommandTime st)%Z ->
  let commands :=
    published (trace_of (client_on_message SENSOR_DATA_TOPIC message tDate currentTime st)) in
  let dry := js_gt (soilMoisture r) MOISTURE_DRY_THRESHOLD = inr true in
  let wet := js_lt (soilMoisture r) MOISTURE_WET_THRESHOLD = inr true in
  (dry -> pumpStatus r = JStr "OFF" -> commands = [TURN_PUMP_ON])
  /\ (wet -> pumpStatus r = JStr "ON" -> commands = [TURN_PUMP_OFF])
  /\ (~ (dry /\ pumpStatus r = JStr "OFF") ->
      ~ (wet /\ pumpStatus r = JStr "ON") -> commands = [])
  /\ (forall n, ToNumber (soilMoisture r) = inr n ->
      number_le MOISTURE_WET_THRESHOLD n = true ->
      number_le n MOISTURE_DRY_THRESHOLD = true ->
      commands = []).
Proof.
  intros Hparse Hlit Helapsed. cbv zeta.
  rewrite (published_accepted _ _ _ _ _ _ Hparse Hlit).
  replace (canSendPumpCommand currentTime (lastPumpCommandTime st)) with true
    by (symmetry; apply canSendPumpCommand_elapsed;
        unfold PUMP_COOLDOWN_SECONDS in Helapsed; lia).
  rewrite published_decision. unfold js_gt, js_lt.
  destruct (ToNumber (soilMoisture r)) as [e|n]; cbn [bindE].
  { repeat split; try reflexivity; discriminate 1. }
  repeat split.
  - intros Hdry ->.
    replace (number_lt MOISTURE_DRY_THRESHOLD n) with true by congruence.
    reflexivity.
  - intros Hwet ->.
    replace (number_lt n MOISTURE_WET_THRESHOLD) with true by congruence.
    replace (strict_eq_string (JStr "ON") "OFF") with false by reflexivity.
    rewrite andb_false_r. reflexivity.
  - intros Hon Hoff.
    destruct (number_lt MOISTURE_DRY_THRESHOLD n && _) eqn:E1.
    { exfalso. apply Hon. apply andb_true_iff in E1 as [E1 ?].
      split; [now rewrite E1|]. now apply strict_eq_string_true. }
    destruct (number_lt n MOISTURE_WET_THRESHOLD && _) eqn:E2; [|reflexivity].
    exfalso. apply Hoff. apply andb_true_iff in E2 as [E2 ?].
    split; [now rewrite E2|]. now apply strict_eq_string_true.
  - intros n' Hn Hlow Hhigh. assert (n' = n) as -> by congruence.
    rewrite (number_le_not_lt _ _ Hhigh), (number_le_not_lt _ _ Hlow).
    reflexivity.
Qed.

Lemma client_on_message_cooldown topic message tDate currentTime st :
  (currentTime - lastPumpCommandTime st < 1000 * PUMP_COOLDOWN_SECONDS)%Z ->
  published (trace_of (client_on_message topic message tDate currentTime st)) = [].
Proof.
  intros Hcool.
  destruct (published (trace_of _)) as [|[topic' payload] rest] eqn:E; [reflexivity|].
  exfalso.
  assert (Hin : exists cb, In (publish topic' payload cb)
                    (trace_of (client_on_message topic message tDate currentTime st))).
  { assert (Hp : (topic', payload) ∈ published
                   (trace_of (client_on_message topic message tDate currentTime st)))
      by (rewrite E; left).
    unfold published in Hp. apply list_elem_of_omap in Hp as (eff & Heff & Hsome).
    destruct eff; try discriminate Hsome. injection Hsome as -> ->.
    eexists. apply list_elem_of_In. exact Heff. }
  destruct Hin as (cb & Hin).
  assert (topic' = COMMAND_TOPIC) as ->.
  { clear E Hcool.
    destruct (JSON_parse message) as [data|] eqn:Hparse.
    2:{ rewrite client_on_message_unparsable in Hin by assumption.
        destruct Hin as [E|[]]. discriminate E. }
    destruct (String.eqb topic SENSOR_DATA_TOPIC) eqn:Htopic.
    2:{ erewrite client_on_message_other_topic in Hin by eassumption.
        destruct Hin as [E|[]]. discriminate E. }
    apply String.eqb_eq in Htopic. subst topic.
    destruct (sensor_literal data tDate) as [e|r] eqn:Hlit.
    { erewrite client_on_message_no_reading in Hin by eassumption.
      destruct Hin as [E|[E|[]]]; discriminate E. }
    erewrite client_on_message_accepted in Hin by eassumption.
    cbv zeta in Hin. unfold trace_of at 1 in Hin. cbn [snd] in Hin.
    destruct (automation_after_record r currentTime st) as [_ Htrace].
    cbv zeta in Htrace. rewrite Htrace in Hin. clear Htrace.
    destruct Hin as [E|Hin]; [discriminate E|].
    apply in_app_or in Hin as [Hin|Hin].
    2:{ destruct (result_of _); [|contradiction].
        destruct Hin as [E|[]]. discriminate E. }
    destruct (canSendPumpCommand _ _).
    - unfold decision in Hin.
      destruct (ToNumber _) as [e|n]; [contradiction|].
      destruct (number_lt MOISTURE_DRY_THRESHOLD n && _).
      { destruct Hin as [E|[E|[]]]; [discriminate E|now injection E]. }
      destruct (number_lt n MOISTURE_WET_THRESHOLD && _).
      { destruct Hin as [E|[E|[]]]; [discriminate E|now injection E]. }
      destruct (ToString _); [contradiction|].
      destruct Hin as [E|[]]. discriminate E.
    - destruct Hin as [E|[]]. discriminate E. }
  apply client_on_message_publish_inv in Hin as (data & r & _ & _ & _ & Hcan & _).
  apply canSendPumpCommand_elapsed in Hcan.
  unfold PUMP_COOLDOWN_SECONDS in Hcool. lia.
Qed.

(** C2. Readings whose evaluation time is less than the cooldown (30
    seconds) after the last command publish nothing and leave
    [lastPumpCommandTime] as it was, whatever their moisture and reported
    pump status: this holds for every reading of any sequence of readings
    that arrive within the cooldown of the last command. *)
Theorem C2_cooldown_suppresses_commands events st :
  Forall (within_cooldown (lastPumpCommandTime st)) events ->
  published (run events st).2 = []
  /\ lastPumpCommandTime (run events st).1 = lastPumpCommandTime st.
Proof.
  revert st. induction events as [|e events IH]; intros st Hall.
  - split; reflexivity.
  - inversion Hall as [|e' es' He Hrest]; subst.
    destruct e as [topic message tDate currentTime| | | | | |]; try contradiction.
    cbn [within_cooldown] in He.
    cbn [run handle]. cbv zeta. cbn [fst snd].
    pose proof (client_on_message_frame topic message tDate currentTime st)
      as (_ & Hlast & _ & _).
    rewrite <- Hlast in Hrest.
    destruct (IH _ Hrest) as [Hpub Hlast'].
    rewrite published_app, Hpub, Hlast', Hlast.
    rewrite (client_on_message_cooldown _ _ _ _ _ He).
    split; reflexivity.
Qed.

End Controller.

Section PublishOutcome.
Context `{Host}.

(** A publish of the automation carries the callback of its branch, which
    captured the evaluation time. *)
Lemma decision_publish_inv currentTime r payload cb :
  In (publish COMMAND_TOPIC payload cb) (decision currentTime r).2 ->
  (cb = cb_pump_on currentTime \/ cb = cb_pump_off currentTime)
  /\ forall currentTime' r',
       soilMoisture r' = soilMoisture r ->
       pumpStatus r' = pumpStatus r ->
       published (decision currentTime' r').2 = [(COMMAND_TOPIC, payload)].
Proof.
  unfold decision. intros Hin.
  destruct (ToNumber (soilMoisture r)) as [e|n] eqn:Hnum; [contradiction|].
  destruct (number_lt MOISTURE_DRY_THRESHOLD n && _) eqn:E1.
  { destruct Hin as [E|[E|[]]]; [discriminate E|]. injection E as <- <-.
    split; [now left|]. intros t' r' -> ->. now rewrite Hnum, E1. }
  destruct (number_lt n MOISTURE_WET_THRESHOLD && _) eqn:E2.
  { destruct Hin as [E|[E|[]]]; [discriminate E|]. injection E as <- <-.
    split; [now right|]. intros t' r' -> ->. now rewrite Hnum, E1, E2. }
  destruct (ToString _); [contradiction|].
  destruct Hin as [E|[]]. discriminate E.
Qed.

(** C3. When the handler has published a command of the automation at
    evaluation time [now], the callback of that publish sets
    [lastPumpCommandTime] to [now] if and only if the publish succeeded.
    After a failed publish the state is what it was before the callback:
    the callback only logs, and the same reading, arriving again at any
    later time, is published again without waiting for a cooldown. *)
Theorem C3_cooldown_starts_on_confirmed_publish
    topic message tDate now st payload cb (err : option string) :
  In (publish COMMAND_TOPIC payload cb)
     (trace_of (client_on_message topic message tDate now st)) ->
  let st1 := state_of (client_on_message topic message tDate now st) in
  let st2 := state_of (publish_callback cb err st1) in
  (lastPumpCommandTime st2 = now <-> err = None)
  /\ (err = None -> st2 = set_lastPumpCommandTime now st1)
  /\ (err <> None ->
      st2 = st1
      /\ published (trace_of (publish_callback cb err st1)) = []
      /\ forall tDate' now',
           (now <= now')%Z ->
           published (trace_of (client_on_message topic message tDate' now' st2))
           = [(COMMAND_TOPIC, payload)]).
Proof.
  intros Hin. cbv zeta.
  apply client_on_message_publish_inv in Hin
    as (data & r & -> & Hparse & Hlit & Hcan & Hdec).
  apply decision_publish_inv in Hdec as [Hcb Hagain].
  pose proof (client_on_message_frame SENSOR_DATA_TOPIC message tDate now st)
    as (_ & Hlast & _ & _). cbv zeta in Hlast.
  set (st1 := state_of (client_on_message SENSOR_DATA_TOPIC message tDate now st)) in *.
  apply canSendPumpCommand_elapsed in Hcan.
  assert (Hcallback :
    publish_callback cb err st1
    = match err with
      | None => (inr tt, set_lastPumpCommandTime now st1, [])
      | Some _ => (inr tt, st1,
                   [console (match cb with
                             | cb_pump_off _ => error_publish_off
                             | _ => error_publish_on
                             end)])
      end).
  { destruct Hcb as [-> | ->], err; reflexivity. }
  rewrite Hcallback.
  destruct err as [e|]; unfold state_of, trace_of; cbn [fst snd].
  - split; [|split].
    + split; [intros E; lia | discriminate 1].
    + discriminate 1.
    + intros _. split; [reflexivity|]. split; [reflexivity|].
      intros tDate' now' Hle.
      destruct (sensor_literal_clock data tDate tDate' r Hlit)
        as (r' & Hlit' & Hsoil & Hstatus).
      fold (trace_of (client_on_message SENSOR_DATA_TOPIC message tDate' now' st1)).
      rewrite (published_accepted _ _ _ _ _ _ Hparse Hlit').
      replace (canSendPumpCommand now' (lastPumpCommandTime st1)) with true
        by (symmetry; apply canSendPumpCommand_elapsed; lia).
      now apply Hagain.
  - split; [|split].
    + split; reflexivity.
    + reflexivity.
    + intros Hne. now contradiction Hne.
Qed.

End PublishOutcome.

(** ** Callbacks *)

Section Callbacks.
Context `{Host}.

(** The callback of a manual command: it answers 500 after a failed
    publish and 200 after a successful one, unless the action has no
    string form: then the first template literal throws and no answer is
    sent. *)
Lemma publish_callback_manual action err st :
  publish_callback (cb_manual action) err st =
  match err with
  | Some _ =>
      (inr tt, st, [console error_manual_publish; respond 500 body_command_failed])
  | None =>
      match ToString action with
      | inl e => (inl e, st, [])
      | inr _ =>
          (inr tt, st,
           [console (log_manual_sent action);
            respond 200 (body_command_sent action)])
      end
  end.
Proof.
  destruct err; [reflexivity|].
  unfold publish_callback, template, bind, lift, ret, emit.
  destruct (ToString action); reflexivity.
Qed.

(** Only a successful publish of the automation writes the state. *)
Lemma publish_callback_state cb err st :
  state_of (publish_callback cb err st)
  = match cb, err with
    | cb_pump_on currentTime, None
    | cb_pump_off currentTime, None => set_lastPumpCommandTime currentTime st
    | _, _ => st
    end.
Proof.
  destruct cb; [destruct err; reflexivity ..|].
  rewrite publish_callback_manual.
  destruct err; [reflexivity|]. destruct (ToString action); reflexivity.
Qed.

(** The callbacks of the automation return. *)
Lemma publish_callback_returns cb err st :
  (forall action, cb <> cb_manual action) ->
  result_of (publish_callback cb err st) = inr tt.
Proof.
  destruct cb, err; try reflexivity; intros Hcb; now contradiction (Hcb action).
Qed.

(** ** Manual commands *)

(** C5. A manual command whose action is truthy (any non-empty string,
    for one) is published whatever the state of the cooldown: the handler
    publishes exactly that command, and sets [lastPumpCommandTime] to the
    current time before the publish completes; the callback of the
    publish leaves it there whether the publish succeeded or failed. *)
Theorem C5_manual_command_resets_cooldown body action now st (err : option string) :
  get_prop body "action" = inr action ->
  ToBoolean action = true ->
  let res := app_post_command body now st in
  result_of res = inr tt
  /\ trace_of res
     = [publish COMMAND_TOPIC (JObj [("command", action)]) (cb_manual action)]
  /\ state_of res = set_lastPumpCommandTime now st
  /\ lastPumpCommandTime
       (state_of (publish_callback (cb_manual action) err (state_of res))) = now.
Proof.
  intros Hbody Htruthy. cbv zeta.
  assert (E : app_post_command body now st
              = (inr tt, set_lastPumpCommandTime now st,
                 [publish COMMAND_TOPIC (JObj [("command", action)]) (cb_manual action)])).
  { unfold app_post_command, bind, lift. rewrite Hbody, Htruthy. reflexivity. }
  rewrite E. unfold result_of, trace_of, state_of. cbn [fst snd].
  repeat split.
  pose proof (publish_callback_state (cb_manual action) err
                (set_lastPumpCommandTime now st)) as Hst.
  unfold state_of in Hst. rewrite Hst. reflexivity.
Qed.

(** C10. A manual command whose action is falsy, whether the field is
    missing or present with a falsy value, is answered with status 400
    ("Action is required"); nothing is published and the state, with
    [lastPumpCommandTime], is left as it was. *)
Theorem C10_falsy_action_rejected body action now st :
  get_prop body "action" = inr action ->
  ToBoolean action = false ->
  let res := app_post_command body now st in
  result_of res = inr tt
  /\ trace_of res = [respond 400 body_action_required]
  /\ published (trace_of res) = []
  /\ state_of res = st.
Proof.
  intros Hbody Hfalsy. cbv zeta.
  assert (E : app_post_command body now st
              = (inr tt, st, [respond 400 body_action_required])).
  { unfold app_post_command, bind, lift. rewrite Hbody, Hfalsy. reflexivity. }
  rewrite E. repeat split.
Qed.

End Callbacks.

(** The empty string, zero, [false] and [null] are falsy. *)
Lemma falsy_actions :
  Forall (fun action => ToBoolean action = false)
    [JStr ""; JNum (of_Z 0); JBool false; JNull; JUndefined; JNum NaN].
Proof. repeat constructor. Qed.

(** ** Ingestion *)

Section Ingestion.
Context `{Host}.

(** C6. A message whose payload [JSON.parse] rejects is logged and
    dropped: the handler returns without throwing, the whole state (the
    latest reading, the history buffer, [lastPumpCommandTime]) is as
    before, and the only effect is the error line on the console, so no
    command is published. *)
Theorem C6_unparsable_message_dropped topic message tDate currentTime st :
  JSON_parse message = None ->
  let res := client_on_message topic message tDate currentTime st in
  result_of res = inr tt
  /\ state_of res = st
  /\ history (state_of res) = history st
  /\ trace_of res = [console (error_parse message SyntaxError)]
  /\ published (trace_of res) = [].
Proof.
  intros Hparse. cbv zeta.
  rewrite (client_on_message_unparsable _ _ _ _ _ Hparse).
  unfold result_of, state_of, trace_of. cbn [fst snd].
  repeat split.
Qed.

Lemma sensor_literal_fields data tDate :
  data <> JNull -> data <> JUndefined ->
  sensor_literal data tDate =
  get temp <- (if is_undefined (field data "temperature")
               then inr JNull
               else get n <- parseFloat (field data "temperature"); inr (JNum n));
  get hum <- (if is_undefined (field data "humidity")
              then inr JNull
              else get n <- parseInt (field data "humidity"); inr (JNum n));
  inr {| soilMoisture := field data "soilMoisture";
         pumpStatus := if ToBoolean (field data "pumpStatus")
                       then field data "pumpStatus"
                       else JStr "UNKNOWN";
         temperature := temp;
         humidity := hum;
         timestamp := Some tDate |}.
Proof.
  intros Hnull Hundef. unfold sensor_literal, field, js_or.
  destruct data; try contradiction; cbn [get_prop bindE];
    repeat match goal with
           | |- context [is_undefined ?v] => destruct (is_undefined v)
           end; reflexivity.
Qed.

(** C7. For a payload that parses to anything but [null], and whose
    temperature and humidity are missing or have a string form, the
    handler builds a reading and makes it the latest one. Its pump
    status is the payload's [pumpStatus] when that is truthy, and UNKNOWN
    when it is missing or falsy. Its temperature and humidity are [null]
    when the field is missing, and otherwise the number that
    [parseFloat] and [parseInt] return for the field. Its timestamp is
    the ingestion time. When the temperature or the humidity is present
    and has no string form, no reading is built and the state is left as
    it was. *)
Theorem C7_reading_built_from_payload message data tDate currentTime st :
  JSON_parse message = Some data ->
  data <> JNull -> data <> JUndefined ->
  let st' := state_of (client_on_message SENSOR_DATA_TOPIC message tDate currentTime st) in
  let r := load_sensor (heap st') (latestSensorData st') in
  let t := field data "temperature" in
  let u := field data "humidity" in
  let convertible v := is_undefined v = true \/ exists s, ToString v = inr s in
  (convertible t /\ convertible u ->
   sensor_literal data tDate = inr r
   /\ soilMoisture r = field data "soilMoisture"
   /\ pumpStatus r = (if ToBoolean (field data "pumpStatus")
                      then field data "pumpStatus"
                      else JStr "UNKNOWN")
   /\ (if is_undefined t then temperature r = JNull
       else exists n, parseFloat t = inr n /\ temperature r = JNum n)
   /\ (if is_undefined u then humidity r = JNull
       else exists n, parseInt u = inr n /\ humidity r = JNum n)
   /\ timestamp r = Some tDate)
  /\ (~ (convertible t /\ convertible u) ->
      (exists e, sensor_literal data tDate = inl e) /\ st' = st).
Proof.
  intros Hparse Hnull Hundef. cbv zeta.
  pose proof (sensor_literal_fields data tDate Hnull Hundef) as Hlit.
  set (t := field data "temperature") in *.
  set (u := field data "humidity") in *.
  assert (Htemp : (is_undefined t = true \/ exists s, ToString t = inr s) ->
                  exists temp,
                    (if is_undefined t then inr JNull
                     else get n <- parseFloat t; inr (JNum n)) = inr temp
                    /\ (if is_undefined t then temp = JNull
                        else exists n, parseFloat t = inr n /\ temp = JNum n)).
  { intros Hconv. unfold parseFloat.
    destruct (is_undefined t); [now exists JNull|].
    destruct Hconv as [E|[s' ->]]; [discriminate E|]. cbn [bindE].
    eexists. split; [reflexivity|]. eexists. split; reflexivity. }
  assert (Hhum : (is_undefined u = true \/ exists s, ToString u = inr s) ->
                 exists hum,
                   (if is_undefined u then inr JNull
                    else get n <- parseInt u; inr (JNum n)) = inr hum
                   /\ (if is_undefined u then hum = JNull
                       else exists n, parseInt u = inr n /\ hum = JNum n)).
  { intros Hconv. unfold parseInt.
    destruct (is_undefined u); [now exists JNull|].
    destruct Hconv as [E|[s' ->]]; [discriminate E|]. cbn [bindE].
    eexists. split; [reflexivity|]. eexists. split; reflexivity. }
  split.
  - intros [Ht Hu].
    destruct (Htemp Ht) as (temp & Etemp & Htempv).
    destruct (Hhum Hu) as (hum & Ehum & Hhumv).
    rewrite Etemp, Ehum in Hlit. cbn [bindE] in Hlit.
    rewrite (client_on_message_accepted _ _ _ _ _ _ Hparse Hlit).
    match type of Hlit with
    | _ = inr ?r => pose proof (record_reading_latest r st) as Hlatest
    end.
    cbv zeta in *. unfold state_of in *. cbn [fst snd] in *.
    rewrite Hlatest. cbn [soilMoisture pumpStatus temperature humidity timestamp].
    split; [exact Hlit|]. repeat split; assumption.
  - intros Hnot.
    destruct (sensor_literal data tDate) as [e|r] eqn:Hr.
    { split; [now exists e|].
      now rewrite (client_on_message_no_reading _ _ _ _ _ _ Hparse Hr). }
    exfalso. apply Hnot. clear Hnot Htemp Hhum.
    unfold parseFloat, parseInt in Hlit.
    destruct (is_undefined t).
    + split; [now left|].
      destruct (is_undefined u); [now left|].
      right. cbn [bindE] in Hlit.
      destruct (ToString u) as [e|s']; [discriminate Hlit|]. now exists s'.
    + destruct (ToString t) as [e|s']; [discriminate Hlit|].
      split; [right; now exists s'|]. cbn [bindE] in Hlit.
      destruct (is_undefined u); [now left|].
      right. destruct (ToString u) as [e|s'']; [discriminate Hlit|]. now exists s''.
Qed.

End Ingestion.

(** ** The history query *)

Lemma well_formed_same_heap st st' :
  heap st' = heap st -> historicalData st' = historicalData st ->
  well_formed st -> well_formed st'.
Proof. unfold well_formed. intros -> ->. auto. Qed.

Lemma app_get_history_unfold st :
  app_get_history st =
  let copy := HArray (array_elems (heap st) (historicalData st)) in
  let h' := heap st ++ [copy] in
  (inr tt, set_heap h' st, [respond 200 (body_history (readings_at h' (length (heap st))))]).
Proof. reflexivity. Qed.

Lemma well_formed_alloc st o :
  well_formed st -> well_formed (set_heap (heap st ++ [o]) st).
Proof.
  intros (l & Hl & Hall). exists l. cbn. split.
  - rewrite lookup_app_l; [assumption|]. now apply lookup_lt_Some in Hl.
  - eapply Forall_impl; [exact Hall|]. cbn. intros a Ha.
    rewrite length_app. lia.
Qed.

Section Reachable.
Context `{Host}.

Lemma handle_well_formed e st :
  well_formed st -> well_formed (state_of (handle e st)).
Proof.
  intros Hwf. destruct e as [topic message tDate currentTime|cb err| | |body now|key result tDate|];
    cbn [handle].
  - destruct (JSON_parse message) as [data|] eqn:Hparse.
    2:{ now rewrite client_on_message_unparsable. }
    destruct (String.eqb topic SENSOR_DATA_TOPIC) eqn:Htopic.
    2:{ now erewrite client_on_message_other_topic by eassumption. }
    apply String.eqb_eq in Htopic. subst topic.
    destruct (sensor_literal data tDate) as [e|r] eqn:Hlit.
    { now erewrite client_on_message_no_reading by eassumption. }
    erewrite client_on_message_accepted by eassumption.
    now apply record_reading_history.
  - rewrite publish_callback_state.
    destruct cb, err; auto; eapply well_formed_same_heap; eauto.
  - exact Hwf.
  - rewrite app_get_history_unfold. now apply well_formed_alloc.
  - unfold app_post_command, bind, lift.
    destruct (get_prop body "action") as [e|action]; [exact Hwf|].
    destruct (ToBoolean action); [|exact Hwf].
    eapply well_formed_same_heap; eauto.
  - unfold fetchWeatherData.
    destruct (_ || _); [exact Hwf|].
    unfold try_catch, bind, await_axios, lift.
    destruct result as [data|msg response]; cbn.
    + destruct (weather_literal data tDate) as [e|w]; cbn.
      * destruct e as [| |m [[status d]|]]; exact Hwf.
      * eapply well_formed_same_heap; eauto.
    + destruct response as [[status d]|]; exact Hwf.
  - exact Hwf.
Qed.

Lemma run_well_formed events st :
  well_formed st -> well_formed (run events st).1.
Proof.
  revert st. induction events as [|e events IH]; intros st Hwf; [exact Hwf|].
  cbn [run]. cbv zeta. cbn [fst]. apply IH. now apply handle_well_formed.
Qed.

End Reachable.

Lemma array_elems_alloc h l : array_elems (h ++ [HArray l]) (length h) = l.
Proof. unfold array_elems. now rewrite list_lookup_middle. Qed.

Lemma readings_at_app_l h t a :
  (forall b, b ∈ array_elems h a -> (b < length h)%nat) ->
  (a < length h)%nat ->
  readings_at (h ++ t) a = readings_at h a.
Proof.
  intros Hall Ha. unfold readings_at.
  rewrite array_elems_app_l by assumption.
  apply map_ext_in. intros b Hb. apply load_sensor_app_l.
  apply Hall. now apply list_elem_of_In.
Qed.

(** In a well-formed state: what the history query does. *)
Lemma app_get_history_snapshot st :
  well_formed st ->
  let res := app_get_history st in
  let st' := state_of res in
  let copy := length (heap st) in
  result_of res = inr tt
  /\ trace_of res = [respond 200 (body_history (history st))]
  /\ history st' = history st
  /\ latestSensorData st' = latestSensorData st
  /\ historicalData st' = historicalData st
  /\ lastPumpCommandTime st' = lastPumpCommandTime st
  /\ latestWeatherData st' = latestWeatherData st
  /\ (forall a, (a < length (heap st))%nat -> heap st' !! a = heap st !! a)
  /\ heap st' !! copy = Some (HArray (array_elems (heap st) (historicalData st)))
  /\ copy <> historicalData st
  /\ forall elems,
       let h'' := array_store copy elems (heap st') in
       history (set_heap h'' st') = history st
       /\ forall a, (a < length (heap st))%nat -> h'' !! a = heap st !! a.
Proof.
  intros (l & Hl & Hall). rewrite app_get_history_unfold. cbv zeta.
  unfold result_of, trace_of, state_of. cbn [fst snd].
  cbn [heap set_heap latestSensorData historicalData lastPumpCommandTime
       latestWeatherData].
  pose proof (lookup_lt_Some _ _ _ Hl) as Hhd.
  set (hd := historicalData st) in *.
  set (h := heap st) in *.
  assert (El : array_elems h hd = l) by (unfold array_elems; now rewrite Hl).
  assert (Hvalid : forall b, b ∈ array_elems h hd -> (b < length h)%nat).
  { rewrite El. intros b Hb. rewrite Forall_forall in Hall. now apply Hall. }
  assert (Hcopy : (h ++ [HArray (array_elems h hd)]) !! length h
                  = Some (HArray (array_elems h hd)))
    by apply list_lookup_middle, eq_refl.
  assert (Hbody : readings_at (h ++ [HArray (array_elems h hd)]) (length h)
                  = history st).
  { unfold readings_at at 1. rewrite array_elems_alloc.
    unfold history, readings_at. fold h hd.
    apply map_ext_in. intros b Hb. apply load_sensor_app_l.
    apply Hvalid. now apply list_elem_of_In. }
  assert (Hhist : history (set_heap (h ++ [HArray (array_elems h hd)]) st)
                  = history st).
  { unfold history. cbn [heap set_heap historicalData]. fold h hd.
    now apply readings_at_app_l. }
  repeat split; auto.
  - now rewrite Hbody.
  - intros a Ha. now apply lookup_app_l.
  - lia.
  - rewrite <- Hhist. unfold history, readings_at.
    cbn [heap set_heap historicalData]. fold h hd.
    rewrite array_elems_array_store_ne by lia.
    apply map_ext. intros b. apply load_sensor_array_store.
  - intros a Ha. rewrite array_store_lookup_ne by lia.
    now apply lookup_app_l.
Qed.

Section Frame.
Context `{Host}.

(** Only the message handler writes the buffer: any other event leaves
    the history, and every object of the store, as they were. *)
Lemma handle_frame e st :
  is_message e = false ->
  well_formed st ->
  let st' := state_of (handle e st) in
  history st' = history st
  /\ (length (heap st) <= length (heap st'))%nat
  /\ forall a, (a < length (heap st))%nat -> heap st' !! a = heap st !! a.
Proof.
  intros Hmsg Hwf. cbv zeta.
  destruct e as [topic message tDate currentTime|cb err| | |body now|key result tDate|];
    try discriminate Hmsg; cbn [handle].
  - rewrite publish_callback_state.
    destruct cb, err; auto.
  - auto.
  - destruct (app_get_history_snapshot st Hwf)
      as (_ & _ & Hhist & _ & _ & _ & _ & Hobj & _).
    split; [exact Hhist|]. split; [|exact Hobj].
    rewrite app_get_history_unfold. cbv zeta. unfold state_of.
    cbn [fst snd heap set_heap]. rewrite length_app. lia.
  - unfold app_post_command, bind, lift.
    destruct (get_prop body "action") as [e|action]; [auto|].
    destruct (ToBoolean action); auto.
  - unfold fetchWeatherData.
    destruct (_ || _); [auto|].
    unfold try_catch, bind, await_axios, lift.
    destruct result as [data|msg response]; cbn.
    + destruct (weather_literal data tDate) as [e|w]; cbn; auto.
      destruct e as [| |m [[status d]|]]; auto.
    + destruct response as [[status d]|]; auto.
  - auto.
Qed.

Lemma run_frame events st :
  Forall (fun e => is_message e = false) events ->
  well_formed st ->
  let st' := (run events st).1 in
  history st' = history st
  /\ (length (heap st) <= length (heap st'))%nat
  /\ forall a, (a < length (heap st))%nat -> heap st' !! a = heap st !! a.
Proof.
  intros Hall. revert st.
  induction Hall as [|e events He Hall IH]; intros st Hwf; [cbn; auto|].
  cbn [run]. cbv zeta. cbn [fst].
  destruct (handle_frame e st He Hwf) as (Hhist & Hlen & Hobj).
  destruct (IH _ (handle_well_formed e st Hwf)) as (Hhist' & Hlen' & Hobj').
  split; [congruence|]. split; [lia|].
  intros a Ha. rewrite Hobj' by lia. now apply Hobj.
Qed.

End Frame.

(** ** The readings of the event loop *)

Section LoopInvariant.
Context `{Host}.

(** A message from which no reading is built changes nothing. *)
Lemma handle_message_not_accepted topic message tDate currentTime st :
  accepted_reading (ev_message topic message tDate currentTime) = None ->
  let res := client_on_message topic message tDate currentTime st in
  result_of res = inr tt
  /\ state_of res = st
  /\ published (trace_of res) = [].
Proof.
  cbn [accepted_reading]. intros Hacc. cbv zeta.
  destruct (JSON_parse message) as [data|] eqn:Hparse.
  2:{ now rewrite client_on_message_unparsable. }
  destruct (String.eqb topic SENSOR_DATA_TOPIC) eqn:Htopic.
  2:{ now erewrite client_on_message_other_topic by eassumption. }
  apply String.eqb_eq in Htopic. subst topic.
  destruct (sensor_literal data tDate) as [e|r] eqn:Hlit; [|discriminate Hacc].
  now erewrite client_on_message_no_reading by eassumption.
Qed.

(** A message from which the reading [r] is built records [r]. *)
Lemma handle_message_accepted topic message tDate currentTime st r :
  accepted_reading (ev_message topic message tDate currentTime) = Some r ->
  state_of (client_on_message topic message tDate currentTime st)
  = state_of (record_reading r st).
Proof.
  cbn [accepted_reading]. intros Hacc.
  destruct (String.eqb topic SENSOR_DATA_TOPIC) eqn:Htopic; [|discriminate Hacc].
  apply String.eqb_eq in Htopic. subst topic.
  destruct (JSON_parse message) as [data|] eqn:Hparse; [|discriminate Hacc].
  destruct (sensor_literal data tDate) as [e|r'] eqn:Hlit; [discriminate Hacc|].
  injection Hacc as ->.
  now erewrite client_on_message_accepted by eassumption.
Qed.

(** Events other than messages leave the two bindings of the store. *)
Lemma handle_bindings e st :
  is_message e = false ->
  latestSensorData (state_of (handle e st)) = latestSensorData st
  /\ historicalData (state_of (handle e st)) = historicalData st.
Proof.
  intros Hmsg.
  destruct e as [topic message tDate currentTime|cb err| | |body now|key result tDate|];
    try discriminate Hmsg; cbn [handle].
  - rewrite publish_callback_state.
    destruct cb, err; auto.
  - auto.
  - rewrite app_get_history_unfold. auto.
  - unfold app_post_command, bind, lift.
    destruct (get_prop body "action") as [e|action]; [auto|].
    destruct (ToBoolean action); auto.
  - unfold fetchWeatherData.
    destruct (_ || _); [auto|].
    unfold try_catch, bind, await_axios, lift.
    destruct result as [data|msg response]; cbn.
    + destruct (weather_literal data tDate) as [e|w]; cbn; auto.
      destruct e as [| |m [[status d]|]]; auto.
    + destruct response as [[status d]|]; auto.
  - auto.
Qed.

Lemma handle_loop_invariant e st rs :
  loop_invariant rs st ->
  loop_invariant (rs ++ option_list (accepted_reading e)) (state_of (handle e st)).
Proof.
  intros (Hwf & Hlatest & Hhist & Hload).
  destruct (is_message e) eqn:Hmsg.
  - destruct e as [topic message tDate currentTime| | | | | |];
      try discriminate Hmsg. cbn [handle].
    destruct (accepted_reading _) as [r|] eqn:Hacc.
    + rewrite (handle_message_accepted _ _ _ _ _ _ Hacc). cbn [option_list].
      destruct (record_reading_history r st Hwf) as [Hwf' Hhist'].
      pose proof (record_reading_roots r st) as (_ & _ & _ & Hl).
      pose proof (record_reading_latest r st) as Hr.
      cbv zeta in *. repeat split.
      * exact Hwf'.
      * rewrite Hl. rewrite record_reading_unfold. cbv zeta.
        unfold state_of. cbn [fst snd heap set_heap].
        case_if; rewrite ?array_store_length, length_app; cbn; lia.
      * change (option_list (Some r)) with [r].
        rewrite Hhist', Hhist. apply push_bounded_drop.
      * rewrite Hr. change (option_list (Some r)) with [r]. now rewrite last_snoc.
    + destruct (handle_message_not_accepted _ _ _ _ st Hacc) as (_ & -> & _).
      change (option_list None) with (@nil SensorData).
      rewrite app_nil_r. now repeat split.
  - assert (Hnone : accepted_reading e = None) by (destruct e; auto; discriminate Hmsg).
    rewrite Hnone. change (option_list None) with (@nil SensorData).
    rewrite app_nil_r.
    destruct (handle_frame e st Hmsg Hwf) as (Hhist' & Hlen & Hobj).
    destruct (handle_bindings e st Hmsg) as [Hl Hhd].
    repeat split.
    + now apply handle_well_formed.
    + rewrite Hl. lia.
    + congruence.
    + rewrite Hl. unfold load_sensor. rewrite Hobj by assumption. exact Hload.
Qed.

Lemma accepted_cons e events :
  accepted (e :: events) = option_list (accepted_reading e) ++ accepted events.
Proof. unfold accepted. cbn. now destruct (accepted_reading e). Qed.

Lemma run_loop_invariant events st rs :
  loop_invariant rs st ->
  loop_invariant (rs ++ accepted events) (run events st).1.
Proof.
  revert st rs. induction events as [|e events IH]; intros st rs Hinv.
  - cbn. now rewrite app_nil_r.
  - rewrite accepted_cons, app_assoc. cbn [run]. cbv zeta. cbn [fst].
    apply IH. now apply handle_loop_invariant.
Qed.

Lemma initial_state_loop_invariant : loop_invariant [] initial_state.
Proof.
  split; [apply initial_state_well_formed|].
  split; [cbn; lia|]. split; reflexivity.
Qed.

(** A reading object is never written: whatever the event, the object
    has the fields it was built with. *)
Lemma array_store_sensor a elems h b r :
  h !! b = Some (HSensor r) -> array_store a elems h !! b = Some (HSensor r).
Proof.
  intros Hb. unfold array_store.
  destruct (h !! a) as [[r'|l]|] eqn:Ha; try exact Hb.
  destruct (decide (a = b)) as [Heq|Hne].
  - subst b. pose proof (eq_trans (eq_sym Ha) Hb) as E. discriminate E.
  - now rewrite list_lookup_insert_ne.
Qed.

Lemma handle_sensor_objects e st a r :
  well_formed st ->
  heap st !! a = Some (HSensor r) ->
  heap (state_of (handle e st)) !! a = Some (HSensor r).
Proof.
  intros Hwf Ha.
  destruct (is_message e) eqn:Hmsg.
  - destruct e as [topic message tDate currentTime| | | | | |];
      try discriminate Hmsg. cbn [handle].
    destruct (accepted_reading (ev_message topic message tDate currentTime))
      as [r'|] eqn:Hacc.
    + rewrite (handle_message_accepted _ _ _ _ _ _ Hacc).
      rewrite record_reading_unfold. cbv zeta.
      unfold state_of. cbn [fst snd heap set_heap].
      assert (Hb : (heap st ++ [HSensor r']) !! a = Some (HSensor r)).
      { rewrite lookup_app_l; [exact Ha|]. now apply lookup_lt_Some in Ha. }
      case_if; repeat apply array_store_sensor; exact Hb.
    + now destruct (handle_message_not_accepted _ _ _ _ st Hacc) as (_ & -> & _).
  - destruct (handle_frame e st Hmsg Hwf) as (_ & _ & Hobj).
    rewrite Hobj; [exact Ha|]. now apply lookup_lt_Some in Ha.
Qed.

Lemma run_sensor_objects events st a r :
  well_formed st ->
  heap st !! a = Some (HSensor r) ->
  heap (run events st).1 !! a = Some (HSensor r).
Proof.
  revert st. induction events as [|e events IH]; intros st Hwf Ha; [exact Ha|].
  cbn [run]. cbv zeta. cbn [fst]. apply IH.
  - now apply handle_well_formed.
  - now apply handle_sensor_objects.
Qed.

End LoopInvariant.

(** C8. In every state the program reaches, the history query answers
    with the last 200 of the readings built from the accepted messages,
    in their order of arrival, oldest first, as a body of values. It
    changes no binding and no object of the store. The array it hands to
    [res.json] is a new object, distinct from the live buffer: storing
    any elements in it leaves the live buffer, and every object that was
    in the store, as they were. No request made afterwards changes the
    live buffer or an object that was in the store either, and the query
    made again after any such requests gets the same body: only a new
    MQTT message writes the buffer, and no event at all ever writes a
    reading object. *)
Theorem C8_history_query_returns_snapshot `{Host} (events : list Event) :
  let st := (run events initial_state).1 in
  let readings := drop (length (accepted events) - 200) (accepted events) in
  let res := app_get_history st in
  let st' := state_of res in
  let copy := length (heap st) in
  result_of res = inr tt
  /\ trace_of res = [respond 200 (body_history readings)]
  /\ history st = readings
  /\ history st' = readings
  /\ latestSensorData st' = latestSensorData st
  /\ historicalData st' = historicalData st
  /\ lastPumpCommandTime st' = lastPumpCommandTime st
  /\ latestWeatherData st' = latestWeatherData st
  /\ (forall a, (a < length (heap st))%nat -> heap st' !! a = heap st !! a)
  /\ heap st' !! copy = Some (HArray (array_elems (heap st) (historicalData st)))
  /\ copy <> historicalData st
  /\ (forall elems,
        let h'' := array_store copy elems (heap st') in
        history (set_heap h'' st') = readings
        /\ forall a, (a < length (heap st))%nat -> h'' !! a = heap st !! a)
  /\ (forall requests,
        Forall (fun e => is_message e = false) requests ->
        let st'' := (run requests st').1 in
        history st'' = readings
        /\ (forall a, (a < length (heap st))%nat -> heap st'' !! a = heap st !! a)
        /\ trace_of (app_get_history st'') = [respond 200 (body_history readings)])
  /\ (forall later a r,
        heap st !! a = Some (HSensor r) ->
        heap (run later st').1 !! a = Some (HSensor r)).
Proof.
  pose proof (run_well_formed events initial_state initial_state_well_formed)
    as Hwf.
  destruct (run_loop_invariant events _ [] initial_state_loop_invariant)
    as (_ & _ & Hreadings & _).
  cbn [app] in Hreadings.
  cbv zeta. set (st := (run events initial_state).1) in *.
  destruct (app_get_history_snapshot st Hwf)
    as (Hres & Htrace & Hhist & Hlatest & Hhd & Hlast & Hweather & Hobj
        & Hcopy & Hfresh & Hstore).
  cbv zeta in Hstore. rewrite <- Hreadings.
  repeat (split; [assumption || reflexivity|]).
  assert (Hwf' : well_formed (state_of (app_get_history st)))
    by apply (handle_well_formed ev_get_history st Hwf).
  split.
  - intros requests Hreq.
    destruct (run_frame requests _ Hreq Hwf')
      as (Hhist' & Hlen' & Hobj').
    split; [congruence|]. split.
    + intros a Ha. rewrite Hobj'; [now apply Hobj|].
      apply lookup_lt_is_Some. rewrite Hobj by assumption.
      now apply lookup_lt_is_Some.
    + destruct (app_get_history_snapshot _ (run_well_formed requests _ Hwf'))
        as (_ & -> & _).
      congruence.
  - intros later a r Ha. apply run_sensor_objects; [exact Hwf'|].
    rewrite Hobj; [exact Ha|]. now apply lookup_lt_Some in Ha.
Qed.

(** The copy is shallow: its elements are the addresses of the reading
    objects of the live buffer. Only the body, which [res.json] builds
    from the fields of those objects, leaves the process. *)
Remark app_get_history_copy_is_shallow st :
  let st' := state_of (app_get_history st) in
  array_elems (heap st') (length (heap st))
  = array_elems (heap st) (historicalData st).
Proof.
  rewrite app_get_history_unfold. cbv zeta.
  unfold state_of. cbn [fst snd heap set_heap].
  apply array_elems_alloc.
Qed.

(** ** The weather refresh *)

Lemma get_prop_nullish v k :
  get_prop v k = if nullish v then inl TypeError else inr (field v k).
Proof. unfold field. destruct v; reflexivity. Qed.

Lemma get_first_nullish v :
  get_first v = if nullish v then inl TypeError else inr (first v).
Proof. unfold first. destruct v; reflexivity. Qed.

(** The answers on which the literal of lines 282-291 throws: those that
    are nullish or lack one of [main], [weather], [weather[0]], [wind]. *)
Lemma weather_literal_throws data tDate :
  (exists e, weather_literal data tDate = inl e)
  <-> nullish data
      || nullish (field data "main")
      || nullish (field data "weather")
      || nullish (first (field data "weather"))
      || nullish (field data "wind") = true.
Proof.
  unfold weather_literal.
  rewrite !(get_prop_nullish data).
  destruct (nullish data); cbn [bindE orb].
  { split; [reflexivity|eauto]. }
  rewrite !(get_prop_nullish (field data "main")).
  destruct (nullish (field data "main")); cbn [bindE orb].
  { split; [reflexivity|eauto]. }
  rewrite !(get_first_nullish (field data "weather")).
  destruct (nullish (field data "weather")); cbn [bindE orb].
  { split; [reflexivity|eauto]. }
  rewrite !(get_prop_nullish (first (field data "weather"))).
  destruct (nullish (first (field data "weather"))); cbn [bindE orb].
  { split; [reflexivity|eauto]. }
  rewrite !(get_prop_nullish (field data "wind")).
  destruct (nullish (field data "wind")); cbn [bindE orb].
  { split; [reflexivity|eauto]. }
  split; [intros [e He]; discriminate He | discriminate 1].
Qed.

(** C9. A weather refresh that fails, because the request is rejected or
    because the fields of the answer cannot be read, leaves the whole
    state, and with it the cached weather snapshot, as it was; the
    function returns without throwing and its only effects are lines on
    the console, the first of which reports the error. The answers whose
    fields cannot be read are those that are [null] or [undefined] or in
    which [main], [weather], [weather[0]] or [wind] is. *)
Theorem C9_failed_refresh_keeps_snapshot api_key result tDate st :
  refresh_fails result tDate ->
  let res := fetchWeatherData api_key result tDate st in
  result_of res = inr tt
  /\ state_of res = st
  /\ latestWeatherData (state_of res) = latestWeatherData st
  /\ Forall is_console (trace_of res)
  /\ (String.eqb api_key "" || String.eqb api_key "YOUR_OPENWEATHER_API_KEY" = false ->
      exists e rest, trace_of res = console (error_weather e) :: rest)
  /\ match result with
     | axios_rejected _ _ => True
     | axios_resolved data =>
         nullish data
         || nullish (field data "main")
         || nullish (field data "weather")
         || nullish (first (field data "weather"))
         || nullish (field data "wind") = true
     end.
Proof.
  intros Hfail. cbv zeta.
  assert (Hwhy : match result with
                 | axios_rejected _ _ => True
                 | axios_resolved data =>
                     nullish data
                     || nullish (field data "main")
                     || nullish (field data "weather")
                     || nullish (first (field data "weather"))
                     || nullish (field data "wind") = true
                 end).
  { destruct result as [data|msg response]; [|exact I].
    now apply (weather_literal_throws data tDate). }
  unfold fetchWeatherData.
  destruct (_ || _).
  { unfold result_of, state_of, trace_of. cbn.
    repeat split; [repeat constructor | discriminate 1 | exact Hwhy]. }
  destruct result as [data|msg response]; cbn [refresh_fails] in Hfail.
  - destruct Hfail as [e He].
    unfold try_catch, bind, await_axios, lift, ret.
    cbv beta iota. rewrite He.
    unfold emit, result_of, state_of, trace_of.
    destruct e as [| |m [[status d]|]]; cbn;
      (repeat split; [repeat constructor | intros _; eauto | exact Hwhy]).
  - unfold try_catch, bind, await_axios, throw, emit, ret,
      result_of, state_of, trace_of.
    destruct response as [[status d]|]; cbn;
      (repeat split; [repeat constructor | intros _; eauto]).
Qed.

(** * Examples *)

(** The dry reading 750 with the pump reported OFF, 100 seconds after
    the last command: TURN_PUMP_ON is published, once. *)
Lemma C1_dry_reading_turns_pump_on :
  published
    (trace_of (@client_on_message example_host SENSOR_DATA_TOPIC
                 example_dry_message 5 100000 initial_state))
  = [TURN_PUMP_ON].
Proof.
  refine (proj1 (@C1_automation_commands example_host example_dry_message
                   example_dry_payload (example_dry_reading 5) 5 100000
                   initial_state _ _ _) _ _).
  - reflexivity.
  - reflexivity.
  - unfold PUMP_COOLDOWN_SECONDS, initial_state. cbn [lastPumpCommandTime]. lia.
  - reflexivity.
  - reflexivity.
Defined.

(** Two dry readings 10 and 20 seconds after the last command: nothing
    is published. *)
Lemma C2_two_readings_in_cooldown :
  let events :=
    [ev_message SENSOR_DATA_TOPIC example_dry_message 5 10000;
     ev_message SENSOR_DATA_TOPIC example_dry_message 6 20000] in
  published (@run example_host events initial_state).2 = []
  /\ lastPumpCommandTime (@run example_host events initial_state).1 = 0%Z.
Proof.
  apply (@C2_cooldown_suppresses_commands example_host).
  repeat constructor;
    unfold within_cooldown, PUMP_COOLDOWN_SECONDS, initial_state;
    cbn [lastPumpCommandTime]; lia.
Defined.

(** The publish of TURN_PUMP_ON at time 100000 fails: the state is left
    as the handler left it, and the same message is published again one
    millisecond later. *)
Lemma C3_failed_publish_can_be_retried :
  let st1 := state_of (@client_on_message example_host SENSOR_DATA_TOPIC
                         example_dry_message 5 100000 initial_state) in
  let st2 := state_of (@publish_callback example_host (cb_pump_on 100000)
                         (Some "offline") st1) in
  st2 = st1
  /\ published
       (trace_of (@client_on_message example_host SENSOR_DATA_TOPIC
                    example_dry_message 6 100001 st2))
     = [TURN_PUMP_ON].
Proof.
  destruct (@C3_cooldown_starts_on_confirmed_publish example_host
              SENSOR_DATA_TOPIC example_dry_message 5 100000 initial_state
              (JObj [("command", JStr "TURN_PUMP_ON")]) (cb_pump_on 100000)
              (Some "offline"))
    as (_ & _ & Hfail).
  - vm_compute. right. right. left. reflexivity.
  - destruct Hfail as (Hst & _ & Hretry); [discriminate 1|].
    split; [exact Hst|]. apply Hretry. lia.
Defined.

(** The manual command TURN_PUMP_ON at time 5000, in the initial state. *)
Lemma C5_manual_command_example :
  state_of (app_post_command example_command_body 5000 initial_state)
  = set_lastPumpCommandTime 5000 initial_state
  /\ published (trace_of (app_post_command example_command_body 5000 initial_state))
     = [TURN_PUMP_ON].
Proof.
  destruct (@C5_manual_command_resets_cooldown example_host
              example_command_body (JStr "TURN_PUMP_ON") 5000 initial_state None)
    as (_ & Htrace & Hstate & _).
  - reflexivity.
  - reflexivity.
  - split; [exact Hstate|]. rewrite Htrace. reflexivity.
Defined.

(** The action of the body [{"action":""}] is a present string, and the
    handler neither publishes nor resets [lastPumpCommandTime]: at time
    1000 it stays 0. *)
Lemma C5_empty_action_is_not_published :
  get_prop example_empty_action_body "action" = inr (JStr "")
  /\ trace_of (app_post_command example_empty_action_body 1000 initial_state)
     = [respond 400 body_action_required]
  /\ lastPumpCommandTime
       (state_of (app_post_command example_empty_action_body 1000 initial_state))
     = 0%Z.
Proof. repeat split. Qed.

(** The text [not json] is dropped. *)
Lemma C6_unparsable_example :
  @client_on_message example_host SENSOR_DATA_TOPIC "not json" 5 100000 initial_state
  = (inr tt, initial_state, [console (error_parse "not json" SyntaxError)]).
Proof.
  destruct (@C6_unparsable_message_dropped example_host SENSOR_DATA_TOPIC
              "not json" 5 100000 initial_state eq_refl)
    as (Hres & Hst & _ & Htrace & _).
  destruct (client_on_message _ _ _ _ _) as [[res st] out].
  cbn in Hres, Hst, Htrace. now subst.
Defined.

(** The reading built from the dry payload at ingestion time 5. *)
Lemma C7_dry_reading_example :
  @sensor_literal example_host example_dry_payload 5
  = inr (load_sensor
           (heap (state_of (@client_on_message example_host SENSOR_DATA_TOPIC
                              example_dry_message 5 100000 initial_state)))
           (latestSensorData
              (state_of (@client_on_message example_host SENSOR_DATA_TOPIC
                           example_dry_message 5 100000 initial_state)))).
Proof.
  refine (proj1 (proj1 (@C7_reading_built_from_payload example_host
                          example_dry_message example_dry_payload 5 100000
                          initial_state _ _ _) _)).
  - reflexivity.
  - discriminate 1.
  - discriminate 1.
  - split; left; reflexivity.
Defined.

(** The payload [{"soilMoisture":500,"pumpStatus":"","temperature":null}]
    has a pump status and a temperature that is not a number. For every
    host, the reading built from it has the pump status UNKNOWN, which is
    not the payload's, and a number as its temperature, not [null]: the
    number that [parseFloat] makes of the text [null]. *)
Lemma C7_falsy_status_and_null_temperature :
  get_prop example_falsy_payload "pumpStatus" = inr (JStr "")
  /\ get_prop example_falsy_payload "temperature" = inr JNull
  /\ forall (host : Host) (tDate : Z),
       exists r,
         sensor_literal example_falsy_payload tDate = inr r
         /\ pumpStatus r = JStr "UNKNOWN"
         /\ temperature r = JNum (parseFloat_of_string "null")
         /\ pumpStatus r <> JStr ""
         /\ temperature r <> JNull.
Proof.
  split; [reflexivity|]. split; [reflexivity|].
  intros host tDate. eexists. split; [reflexivity|].
  cbn. repeat split; discriminate 1.
Qed.

(** A malformed answer whose [main], [weather[0]] and [wind] can be read
    is not a failure for the program: the refresh at time 8 replaces the
    snapshot of Nairobi, taken at time 7, by one whose fields are all
    [undefined]. *)
Lemma C9_incomplete_answer_replaces_snapshot :
  Weather.city
    (latestWeatherData
       (state_of (fetchWeatherData "key" (axios_resolved example_weather_answer)
                    7 initial_state)))
  = JStr "Nairobi"
  /\ latestWeatherData
       (state_of (fetchWeatherData "key" (axios_resolved example_incomplete_answer) 8
          (state_of (fetchWeatherData "key" (axios_resolved example_weather_answer)
                       7 initial_state))))
     = {| Weather.temperature := JUndefined;
          Weather.feels_like := JUndefined;
          Weather.description := JUndefined;
          Weather.icon := JUndefined;
          Weather.city := JUndefined;
          Weather.humidity := JUndefined;
          Weather.wind_speed := JUndefined;
          Weather.timestamp := Some 8%Z |}
  /\ result_of (fetchWeatherData "key" (axios_resolved example_incomplete_answer) 8
                  (state_of (fetchWeatherData "key"
                               (axios_resolved example_weather_answer)
                               7 initial_state)))
     = inr tt.
Proof. repeat split. Qed.

(** A rejected request: the snapshot of the initial state stays. *)
Lemma C9_network_error_example :
  state_of (fetchWeatherData "key" (axios_rejected "Network Error" None) 7 initial_state)
  = initial_state.
Proof.
  refine (proj1 (proj2 (C9_failed_refresh_keeps_snapshot "key"
                          (axios_rejected "Network Error" None) 7
                          initial_state _))).
  exact I.
Defined.

(** The body [{"action":""}] is answered with status 400. *)
Lemma C10_empty_action_example :
  trace_of (app_post_command example_empty_action_body 1000 initial_state)
  = [respond 400 body_action_required]
  /\ state_of (app_post_command example_empty_action_body 1000 initial_state)
     = initial_state.
Proof.
  destruct (C10_falsy_action_rejected example_empty_action_body (JStr "")
              1000 initial_state)
    as (_ & Htrace & _ & Hstate).
  - reflexivity.
  - reflexivity.
  - split; assumption.
Defined.

(** * Further properties of the event loop *)

Section EventLoop.
Context `{Host}.

(** X1. After any sequence of events from a fresh process, whatever the
    interleaving of messages, requests, publish completions and weather
    refreshes, the history buffer holds the last 200 of the readings built
    from the accepted messages, in arrival order, and never more than 200
    entries. *)
Theorem X1_history_of_the_event_loop (events : list Event) :
  let st := (run events initial_state).1 in
  history st = drop (length (accepted events) - 200) (accepted events)
  /\ (length (history st) <= 200)%nat
  /\ length (history st) = Nat.min (length (accepted events)) 200.
Proof.
  cbv zeta.
  destruct (run_loop_invariant events _ [] initial_state_loop_invariant)
    as (_ & _ & Hhist & _).
  cbn [app] in Hhist. rewrite Hhist, length_drop.
  split; [reflexivity|]. split; lia.
Qed.

(** X2. In every state the program reaches, the latest-data query
    answers with the fields of the reading built from the last accepted
    message, or of the initial object (moisture [null], pump status OFF)
    when no message has been accepted yet, together with
    [lastPumpCommandTime], the cooldown of 30 seconds and
    [automationEnabled: true]; that reading is also the newest entry of
    the history, and the query changes nothing. *)
Theorem X2_latest_query_serves_last_accepted (events : list Event) :
  let st := (run events initial_state).1 in
  let latest := default initial_sensor_data (last (accepted events)) in
  app_get_latest st
  = (inr tt, st,
     [respond 200 (body_latest latest (lastPumpCommandTime st) 30 true)])
  /\ last (history st) = last (accepted events).
Proof.
  cbv zeta.
  destruct (run_loop_invariant events _ [] initial_state_loop_invariant)
    as (_ & _ & Hhist & Hload).
  cbn [app] in Hhist, Hload. split.
  - unfold app_get_latest, bind, read, emit. cbn [app]. now rewrite Hload.
  - rewrite Hhist.
    destruct (accepted events) as [|r rs] using rev_ind; [reflexivity|].
    rewrite last_snoc, length_app. cbn [length].
    destruct (decide (length rs + 1 - 200 <= length rs)%nat) as [Hle|Hgt].
    + rewrite drop_app_le by exact Hle. now rewrite last_snoc.
    + lia.
Qed.

End EventLoop.

Section CommandTime.
Context `{Host}.

Lemma handle_command_time e st :
  lastPumpCommandTime (state_of (handle e st))
  = command_time_after (lastPumpCommandTime st) e.
Proof.
  destruct e as [topic message tDate currentTime|cb err| | |body now|key result tDate|];
    cbn [handle command_time_after].
  - now destruct (client_on_message_frame topic message tDate currentTime st)
      as (_ & -> & _).
  - rewrite publish_callback_state.
    destruct cb, err; reflexivity.
  - reflexivity.
  - reflexivity.
  - unfold app_post_command, bind, lift.
    destruct (get_prop body "action") as [e|action]; [reflexivity|].
    destruct (ToBoolean action); reflexivity.
  - unfold fetchWeatherData.
    destruct (_ || _); [reflexivity|].
    unfold try_catch, bind, await_axios, lift.
    destruct result as [data|msg response]; cbn.
    + destruct (weather_literal data tDate) as [e|w]; cbn; auto.
      destruct e as [| |m [[status d]|]]; auto.
    + destruct response as [[status d]|]; auto.
  - reflexivity.
Qed.

(** X3. [lastPumpCommandTime] is written by two things only: the
    callback of a successful publish of the automation, which stores the
    evaluation time of the reading that caused it, and a manual command
    with a truthy action, which stores the time of the request. After any
    sequence of events it is the value the last such event stored;
    messages, failed publishes, queries and weather refreshes never
    change it. *)
Theorem X3_command_time_of_the_event_loop (events : list Event) (st : State) :
  lastPumpCommandTime (run events st).1
  = foldl command_time_after (lastPumpCommandTime st) events.
Proof.
  revert st. induction events as [|e events IH]; intros st; [reflexivity|].
  cbn [run foldl]. cbv zeta. cbn [fst].
  rewrite IH. now rewrite handle_command_time.
Qed.

End CommandTime.

(** ** Further properties of the weather refresh *)

(** X4. A weather refresh writes nothing but the weather snapshot, and
    that only when the API key is usable, the request resolves and every
    field of the answer can be read: the snapshot is then replaced as a
    whole. In every case the function returns without throwing, touches
    no reading, no history entry and no command time, publishes nothing
    and answers no request: its only effects are console lines. *)
Theorem X4_refresh_writes_only_the_snapshot api_key result tDate st :
  let res := fetchWeatherData api_key result tDate st in
  result_of res = inr tt
  /\ state_of res
     = set_latestWeatherData
         (weather_after (latestWeatherData st) (ev_weather api_key result tDate)) st
  /\ Forall is_console (trace_of res)
  /\ published (trace_of res) = []
  /\ responses (trace_of res) = [].
Proof.
  cbv zeta. unfold fetchWeatherData, weather_after, api_key_usable.
  assert (Hid : set_latestWeatherData (latestWeatherData st) st = st)
    by now destruct st.
  destruct result as [data|msg response].
  - destruct (_ || _); cbn [negb].
    { rewrite Hid. repeat split; repeat constructor. }
    unfold try_catch, bind, await_axios, lift, ret. cbv beta iota.
    destruct (weather_literal data tDate) as [e|w].
    + rewrite Hid. unfold emit, result_of, state_of, trace_of.
      destruct e as [| |m [[status d]|]]; cbn; repeat split; repeat constructor.
    + unfold modify, emit, result_of, state_of, trace_of. cbn.
      repeat split; repeat constructor.
  - rewrite Hid. destruct (_ || _).
    { repeat split; repeat constructor. }
    unfold try_catch, bind, await_axios, throw, emit, ret,
      result_of, state_of, trace_of.
    destruct response as [[status d]|]; cbn; repeat split; repeat constructor.
Qed.

(** X5. When the answer and its [main], [weather], [weather[0]] and
    [wind] are neither [null] nor [undefined], the snapshot built from it
    holds [main.temp], [main.feels_like], [weather[0].description],
    [weather[0].icon], [name], [main.humidity] and [wind.speed], each
    [undefined] when the answer lacks it, and the time of the refresh. *)
Theorem X5_snapshot_fields data tDate :
  nullish data
  || nullish (field data "main")
  || nullish (field data "weather")
  || nullish (first (field data "weather"))
  || nullish (field data "wind") = false ->
  weather_literal data tDate
  = inr {| Weather.temperature := field (field data "main") "temp";
           Weather.feels_like := field (field data "main") "feels_like";
           Weather.description := field (first (field data "weather")) "description";
           Weather.icon := field (first (field data "weather")) "icon";
           Weather.city := field data "name";
           Weather.humidity := field (field data "main") "humidity";
           Weather.wind_speed := field (field data "wind") "speed";
           Weather.timestamp := Some tDate |}.
Proof.
  intros Hok.
  apply orb_false_iff in Hok as [Hok Hwind].
  apply orb_false_iff in Hok as [Hok Hfirst].
  apply orb_false_iff in Hok as [Hok Hweather].
  apply orb_false_iff in Hok as [Hdata Hmain].
  unfold weather_literal.
  rewrite !(get_prop_nullish data), Hdata. cbn [bindE].
  rewrite !(get_prop_nullish (field data "main")), Hmain. cbn [bindE].
  rewrite !(get_first_nullish (field data "weather")), Hweather. cbn [bindE].
  rewrite !(get_prop_nullish (first (field data "weather"))), Hfirst. cbn [bindE].
  rewrite !(get_prop_nullish (field data "wind")), Hwind. cbn [bindE].
  reflexivity.
Qed.

Section WeatherLoop.
Context `{Host}.

Lemma handle_weather e st :
  latestWeatherData (state_of (handle e st))
  = weather_after (latestWeatherData st) e.
Proof.
  destruct e as [topic message tDate currentTime|cb err| | |body now|key result tDate|];
    cbn [handle].
  - now destruct (client_on_message_frame topic message tDate currentTime st)
      as (_ & _ & -> & _).
  - rewrite publish_callback_state.
    destruct cb, err; reflexivity.
  - reflexivity.
  - reflexivity.
  - unfold app_post_command, bind, lift.
    destruct (get_prop body "action") as [e|action]; [reflexivity|].
    destruct (ToBoolean action); reflexivity.
  - unfold fetchWeatherData, weather_after, api_key_usable.
    destruct result as [data|msg response].
    + destruct (_ || _); [reflexivity|]. cbn [negb].
      unfold try_catch, bind, await_axios, lift, ret. cbv beta iota.
      destruct (weather_literal data tDate) as [e|w]; [|reflexivity].
      destruct e as [| |m [[status d]|]]; reflexivity.
    + destruct (_ || _); [reflexivity|].
      destruct response as [[status d]|]; reflexivity.
  - reflexivity.
Qed.

(** X6. After any sequence of events, the weather query answers with
    the snapshot of the last refresh that succeeded, and with the initial
    snapshot, every field [null], when none has: no message, command or
    query changes the snapshot, and a failed refresh keeps the one
    before. The query itself changes nothing. *)
Theorem X6_weather_query_serves_last_success (events : list Event) (st : State) :
  let st' := (run events st).1 in
  latestWeatherData st' = foldl weather_after (latestWeatherData st) events
  /\ app_get_weather st'
     = (inr tt, st',
        [respond 200
           (body_weather (foldl weather_after (latestWeatherData st) events))]).
Proof.
  cbv zeta.
  assert (Hfold : forall es s,
             latestWeatherData (run es s).1
             = foldl weather_after (latestWeatherData s) es).
  { induction es as [|e es IH]; intros s; [reflexivity|].
    cbn [run foldl]. cbv zeta. cbn [fst].
    rewrite IH. now rewrite handle_weather. }
  split; [apply Hfold|].
  unfold app_get_weather, bind, read, emit. cbn [app].
  now rewrite Hfold.
Qed.

End WeatherLoop.

(** ** Further properties of the automation *)

Section CooldownInterplay.
Context `{Host}.

(** What the message handler leaves of a publish of the automation: the
    reading that caused it, and the same command for the same message at
    any time at which the cooldown of the state has elapsed. *)
Lemma publish_again topic message tDate now st payload cb :
  In (publish COMMAND_TOPIC payload cb)
     (trace_of (client_on_message topic message tDate now st)) ->
  (cb = cb_pump_on now \/ cb = cb_pump_off now)
  /\ (30000 <= now - lastPumpCommandTime st)%Z
  /\ forall tDate' now' st',
       (30000 <= now' - lastPumpCommandTime st')%Z ->
       published (trace_of (client_on_message topic message tDate' now' st'))
       = [(COMMAND_TOPIC, payload)].
Proof.
  intros Hin.
  apply client_on_message_publish_inv in Hin
    as (data & r & -> & Hparse & Hlit & Hcan & Hdec).
  apply decision_publish_inv in Hdec as [Hcb Hagain].
  apply canSendPumpCommand_elapsed in Hcan.
  split; [exact Hcb|]. split; [exact Hcan|].
  intros tDate' now' st' Helapsed.
  destruct (sensor_literal_clock data tDate tDate' r Hlit)
    as (r' & Hlit' & Hsoil & Hstatus).
  rewrite (published_accepted _ _ _ _ _ _ Hparse Hlit').
  replace (canSendPumpCommand now' (lastPumpCommandTime st')) with true
    by (symmetry; now apply canSendPumpCommand_elapsed).
  now apply Hagain.
Qed.

(** X7. Once the publish of an automation command is confirmed, the
    cooldown runs from the evaluation time of the reading that caused it:
    for 30 seconds from that time no message publishes anything, and from
    then on the same message publishes the same command again, although
    the first one was delivered. *)
Theorem X7_confirmed_publish_starts_cooldown
    topic message tDate now st payload cb tDate' now' :
  In (publish COMMAND_TOPIC payload cb)
     (trace_of (client_on_message topic message tDate now st)) ->
  let st1 := state_of (client_on_message topic message tDate now st) in
  let st2 := state_of (publish_callback cb None st1) in
  lastPumpCommandTime st2 = now
  /\ ((now' - now < 30000)%Z ->
      forall topic' message',
        published (trace_of (client_on_message topic' message' tDate' now' st2)) = [])
  /\ ((30000 <= now' - now)%Z ->
      published (trace_of (client_on_message topic message tDate' now' st2))
      = [(COMMAND_TOPIC, payload)]).
Proof.
  intros Hin. cbv zeta.
  destruct (publish_again _ _ _ _ _ _ _ Hin) as (Hcb & _ & Hagain).
  pose proof (publish_callback_state cb None
                (state_of (client_on_message topic message tDate now st)))
    as Hst.
  assert (Hlast : lastPumpCommandTime
                    (state_of (publish_callback cb None
                       (state_of (client_on_message topic message tDate now st))))
                  = now)
    by (rewrite Hst; destruct Hcb as [-> | ->]; reflexivity).
  split; [exact Hlast|]. split.
  - intros Hcool topic' message'. apply client_on_message_cooldown.
    rewrite Hlast. unfold PUMP_COOLDOWN_SECONDS. lia.
  - intros Helapsed. apply Hagain. now rewrite Hlast.
Qed.

(** X8. A manual command with a truthy action starts the cooldown of
    the automation at the time of the request: for the next 30 seconds
    no sensor message publishes a command, before the manual publish
    completes as well as after it, and whether it succeeded or failed. *)
Theorem X8_manual_command_silences_automation
    body action now st (err : option string) topic message tDate now' :
  get_prop body "action" = inr action ->
  ToBoolean action = true ->
  (now' - now < 30000)%Z ->
  let st1 := state_of (app_post_command body now st) in
  let st2 := state_of (publish_callback (cb_manual action) err st1) in
  published (trace_of (client_on_message topic message tDate now' st1)) = []
  /\ published (trace_of (client_on_message topic message tDate now' st2)) = [].
Proof.
  intros Hbody Htruthy Hcool. cbv zeta.
  assert (E : state_of (app_post_command body now st)
              = set_lastPumpCommandTime now st).
  { unfold app_post_command, bind, lift. rewrite Hbody, Htruthy. reflexivity. }
  rewrite E.
  rewrite (publish_callback_state (cb_manual action) err
             (set_lastPumpCommandTime now st)).
  split; apply client_on_message_cooldown;
    cbn [lastPumpCommandTime set_lastPumpCommandTime];
    unfold PUMP_COOLDOWN_SECONDS; lia.
Qed.

(** X9. The callback of an automation publish stores the evaluation
    time it captured, not the current time: when a manual command is
    handled between the publish and its confirmation, the confirmation
    replaces the time of the manual command by the earlier evaluation
    time, and the automation can publish again 30 seconds after that
    evaluation time. *)
Theorem X9_late_confirmation_overwrites_manual_reset
    topic message tDate t1 st payload cb body action t2 tDate' now' :
  In (publish COMMAND_TOPIC payload cb)
     (trace_of (client_on_message topic message tDate t1 st)) ->
  get_prop body "action" = inr action ->
  ToBoolean action = true ->
  (30000 <= now' - t1)%Z ->
  let st1 := state_of (client_on_message topic message tDate t1 st) in
  let st2 := state_of (app_post_command body t2 st1) in
  let st3 := state_of (publish_callback cb None st2) in
  lastPumpCommandTime st2 = t2
  /\ lastPumpCommandTime st3 = t1
  /\ published (trace_of (client_on_message topic message tDate' now' st3))
     = [(COMMAND_TOPIC, payload)].
Proof.
  intros Hin Hbody Htruthy Helapsed. cbv zeta.
  destruct (publish_again _ _ _ _ _ _ _ Hin) as (Hcb & _ & Hagain).
  set (st1 := state_of (client_on_message topic message tDate t1 st)).
  assert (E : state_of (app_post_command body t2 st1)
              = set_lastPumpCommandTime t2 st1).
  { unfold app_post_command, bind, lift. rewrite Hbody, Htruthy. reflexivity. }
  rewrite E.
  pose proof (publish_callback_state cb None (set_lastPumpCommandTime t2 st1))
    as Hst.
  assert (Hlast : lastPumpCommandTime
                    (state_of (publish_callback cb None
                                 (set_lastPumpCommandTime t2 st1))) = t1)
    by (rewrite Hst; destruct Hcb as [-> | ->]; reflexivity).
  split; [reflexivity|]. split; [exact Hlast|].
  apply Hagain. now rewrite Hlast.
Qed.

(** X10. The message handler never starts the cooldown itself. Until
    the callback of a publish has run, every further message that
    qualifies is published as well: the same message, handled again at
    any later time before the confirmation, publishes the same command
    a second time. *)
Theorem X10_no_cooldown_before_confirmation
    topic message tDate now st payload cb tDate' now' :
  In (publish COMMAND_TOPIC payload cb)
     (trace_of (client_on_message topic message tDate now st)) ->
  (now <= now')%Z ->
  let st1 := state_of (client_on_message topic message tDate now st) in
  lastPumpCommandTime st1 = lastPumpCommandTime st
  /\ published (trace_of (client_on_message topic message tDate' now' st1))
     = [(COMMAND_TOPIC, payload)].
Proof.
  intros Hin Hle. cbv zeta.
  destruct (publish_again _ _ _ _ _ _ _ Hin) as (_ & Helapsed & Hagain).
  destruct (client_on_message_frame topic message tDate now st)
    as (_ & Hlast & _).
  split; [exact Hlast|]. apply Hagain. rewrite Hlast. lia.
Qed.


End CooldownInterplay.

(** ** Further properties of the manual command *)

(** X12. Every POST of a command whose body can be read gets at most
    one answer: status 400 at once when the action is falsy; otherwise
    none from the handler, which publishes the action as it was given,
    and one from the callback of the publish, status 500 on error and
    status 200 naming the action on success, the callback changing no
    state. A truthy action without a string form gets no answer after a
    successful publish: the callback throws a TypeError while it builds
    its log line. When the body is [null] or [undefined] the handler
    throws a TypeError before doing anything. *)
Theorem X12_one_answer_per_command `{Host} body now st (err : option string) st' :
  let res := app_post_command body now st in
  let action := field body "action" in
  let done := publish_callback (cb_manual action) err st' in
  (nullish body = true -> res = (inl TypeError, st, []))
  /\ (nullish body = false -> ToBoolean action = false ->
      result_of res = inr tt
      /\ responses (trace_of res) = [(400%Z, body_action_required)]
      /\ published (trace_of res) = [])
  /\ (nullish body = false -> ToBoolean action = true ->
      result_of res = inr tt
      /\ responses (trace_of res) = []
      /\ published (trace_of res) = [(COMMAND_TOPIC, JObj [("command", action)])]
      /\ state_of done = st'
      /\ published (trace_of done) = []
      /\ responses (trace_of done)
         = match err, ToString action with
           | Some _, _ => [(500%Z, body_command_failed)]
           | None, inr _ => [(200%Z, body_command_sent action)]
           | None, inl _ => []
           end
      /\ result_of done
         = match err, ToString action with
           | None, inl e => inl e
           | _, _ => inr tt
           end).
Proof.
  cbv zeta. unfold app_post_command, bind, lift.
  rewrite get_prop_nullish.
  destruct (nullish body); (split; [|split]); try discriminate 1.
  - reflexivity.
  - intros _ Hfalsy. rewrite Hfalsy. repeat split.
  - intros _ Htruthy. rewrite Htruthy.
    rewrite publish_callback_manual.
    repeat split; try reflexivity;
      destruct err; try reflexivity; destruct (ToString _); reflexivity.
Qed.

(** ** Further properties of ingestion *)

Section IngestionEdges.
Context `{Host}.

Lemma nullish_false data : nullish data = false -> data <> JNull /\ data <> JUndefined.
Proof. destruct data; (discriminate 1 || (intros _; split; discriminate 1)). Qed.

(** The pump status of a reading is the payload's when that is truthy. *)
Lemma sensor_literal_status data tDate r :
  sensor_literal data tDate = inr r ->
  soilMoisture r = field data "soilMoisture"
  /\ pumpStatus r = (if ToBoolean (field data "pumpStatus")
                     then field data "pumpStatus"
                     else JStr "UNKNOWN").
Proof.
  intros Hr.
  assert (Hnn : nullish data = false).
  { destruct data; try reflexivity; discriminate Hr. }
  destruct (nullish_false data Hnn) as [Hnull Hundef].
  rewrite (sensor_literal_fields data tDate Hnull Hundef) in Hr.
  destruct (if is_undefined (field data "temperature") then _ else _) as [e|temp];
    [discriminate Hr|].
  cbn [bindE] in Hr.
  destruct (if is_undefined (field data "humidity") then _ else _) as [e|hum];
    [discriminate Hr|].
  cbn [bindE] in Hr. injection Hr as <-. split; reflexivity.
Qed.


(** X14. A moisture of [null], [false] or [true] is compared as the
    number 0, 0 or 1: it is below the wet threshold, so when a reading is
    built from the payload, with the pump reported ON and the cooldown
    elapsed, the handler publishes TURN_PUMP_OFF, and with any other
    reported status it publishes nothing. *)
Theorem X14_null_moisture_counts_as_wet message data r tDate now st :
  JSON_parse message = Some data ->
  sensor_literal data tDate = inr r ->
  field data "soilMoisture" = JNull
  \/ (exists b, field data "soilMoisture" = JBool b) ->
  (30000 <= now - lastPumpCommandTime st)%Z ->
  published (trace_of (client_on_message SENSOR_DATA_TOPIC message tDate now st))
  = if strict_eq_string (field data "pumpStatus") "ON"
    then [TURN_PUMP_OFF]
    else [].
Proof.
  intros Hparse Hlit Hmoist Helapsed.
  destruct (sensor_literal_status data tDate r Hlit) as [Hsoil Hstatus].
  rewrite (published_accepted _ _ _ _ _ _ Hparse Hlit).
  replace (canSendPumpCommand now (lastPumpCommandTime st)) with true
    by (symmetry; now apply canSendPumpCommand_elapsed).
  rewrite published_decision, Hsoil, Hstatus.
  assert (Hcmp : exists n, ToNumber (field data "soilMoisture") = inr n
                           /\ number_lt MOISTURE_DRY_THRESHOLD n = false
                           /\ number_lt n MOISTURE_WET_THRESHOLD = true).
  { destruct Hmoist as [-> | [[|] ->]]; eexists; (split; [reflexivity|]);
      split; reflexivity. }
  destruct Hcmp as (n & -> & -> & ->). cbn [andb].
  destruct (field data "pumpStatus") as [ | |b|q|s|l|p]; try reflexivity.
  1:{ now destruct b. }
  1:{ destruct q as [ | | |q]; try reflexivity.
      cbn [ToBoolean]. now destruct (Qeq_bool q 0). }
  cbn [ToBoolean strict_eq_string].
  destruct (String.eqb s "") eqn:Hempty.
  - apply String.eqb_eq in Hempty. subst s. reflexivity.
  - reflexivity.
Qed.

(** X21. A reading whose moisture has no primitive value (an object
    with an own property [toString], for one) is recorded, and becomes
    the latest reading, before the automation compares it: with the
    cooldown elapsed the comparison throws, the [catch] block reports the
    message as one that failed to parse, and nothing is published. *)
Theorem X21_moisture_without_number_is_recorded message data r e tDate now st :
  JSON_parse message = Some data ->
  sensor_literal data tDate = inr r ->
  ToNumber (soilMoisture r) = inl e ->
  (30000 <= now - lastPumpCommandTime st)%Z ->
  let res := client_on_message SENSOR_DATA_TOPIC message tDate now st in
  res = (inr tt, state_of (record_reading r st),
         [console (log_received SENSOR_DATA_TOPIC data);
          console (error_parse message e)])
  /\ load_sensor (heap (state_of res)) (latestSensorData (state_of res)) = r
  /\ published (trace_of res) = [].
Proof.
  intros Hparse Hlit Hnum Helapsed. cbv zeta.
  rewrite (client_on_message_accepted _ _ _ _ _ _ Hparse Hlit). cbv zeta.
  destruct (automation_after_record r now st) as [-> ->].
  replace (canSendPumpCommand now (lastPumpCommandTime st)) with true
    by (symmetry; now apply canSendPumpCommand_elapsed).
  unfold decision. rewrite Hnum. cbn [fst snd caught app].
  split; [reflexivity|].
  unfold state_of, trace_of. cbn [fst snd].
  split; [apply record_reading_latest|reflexivity].
Qed.

End IngestionEdges.

(** ** Binary64 rounding *)

Section Binary64.
Local Open Scope Q_scope.

Lemma two_pos e : 0 < 2 ^ e.
Proof. apply Qpower_0_lt. reflexivity. Qed.

Lemma two_Z (n : Z) : (0 <= n)%Z -> inject_Z (2 ^ n) == 2 ^ n.
Proof. intros Hn. now rewrite Zpower_Qpower. Qed.

Lemma two_plus a b : 2 ^ (a + b) == 2 ^ a * 2 ^ b.
Proof. apply Qpower_plus. discriminate 1. Qed.

Lemma Qlog2_bounds (x : Q) :
  0 < x ->
  let e := (Z.log2 (Qnum x) - Z.log2 (Zpos (Qden x)))%Z in
  2 ^ (e - 1) <= x /\ x < 2 ^ (e + 1).
Proof.
  destruct x as [p q]. intros Hx0. cbv zeta. cbn [Qnum Qden].
  assert (Hp : (0 < p)%Z) by (unfold Qlt in Hx0; cbn in Hx0; lia).
  pose proof (Z.log2_spec p Hp) as [Hp1 Hp2].
  pose proof (Z.log2_spec (Zpos q) eq_refl) as [Hq1 Hq2].
  pose proof (Z.log2_nonneg p) as Hlp.
  pose proof (Z.log2_nonneg (Zpos q)) as Hlq.
  set (lp := Z.log2 p) in *. set (lq := Z.log2 (Zpos q)) in *.
  assert (HP1 : 2 ^ lp <= inject_Z p) by (rewrite <- two_Z by lia; now rewrite <- Zle_Qle).
  assert (HP2 : inject_Z p < 2 ^ (lp + 1))
    by (rewrite <- two_Z by lia; rewrite <- Zlt_Qlt; now rewrite <- Z.add_1_r in Hp2).
  assert (HQ1 : 2 ^ lq <= inject_Z (Zpos q)) by (rewrite <- two_Z by lia; now rewrite <- Zle_Qle).
  assert (HQ2 : inject_Z (Zpos q) < 2 ^ (lq + 1))
    by (rewrite <- two_Z by lia; rewrite <- Zlt_Qlt; now rewrite <- Z.add_1_r in Hq2).
  assert (Hx : p # q == inject_Z p / inject_Z (Zpos q)) by apply Qmake_Qdiv.
  assert (Hqpos : 0 < inject_Z (Zpos q)) by reflexivity.
  rewrite Hx. split.
  - apply Qle_shift_div_l; [exact Hqpos|].
    apply Qle_trans with (2 ^ (lp - lq - 1) * 2 ^ (lq + 1)).
    + apply Qmult_le_l; [apply two_pos|]. now apply Qlt_le_weak.
    + rewrite <- two_plus. replace (lp - lq - 1 + (lq + 1))%Z with lp by lia. exact HP1.
  - apply Qlt_shift_div_r; [exact Hqpos|].
    apply Qlt_le_trans with (2 ^ (lp + 1)); [exact HP2|].
    replace (lp + 1)%Z with (lp - lq + 1 + lq)%Z by lia. rewrite two_plus.
    apply Qmult_le_l; [apply two_pos|]. exact HQ1.
Qed.

Lemma Qlog2_spec (x : Q) : 0 < x -> 2 ^ Qlog2 x <= x /\ x < 2 ^ (Qlog2 x + 1).
Proof.
  intros Hx. destruct (Qlog2_bounds x Hx) as [Hlow Hhigh]. cbv zeta in *.
  unfold Qlog2.
  set (e := (Z.log2 (Qnum x) - Z.log2 (Zpos (Qden x)))%Z) in *.
  destruct (Qle_bool (2 ^ e) x) eqn:E.
  - apply Qle_bool_iff in E. split; assumption.
  - split; [exact Hlow|].
    replace (e - 1 + 1)%Z with e by lia.
    apply Qnot_le_lt. intros Hle. apply Qle_bool_iff in Hle. congruence.
Qed.

Lemma Qlog2_le (x : Q) (k : Z) : 0 < x -> x < 2 ^ (k + 1) -> (Qlog2 x <= k)%Z.
Proof.
  intros Hx Hk. destruct (Qlog2_spec x Hx) as [Hlow _].
  assert (Hlt : 2 ^ Qlog2 x < 2 ^ (k + 1)) by (eapply Qle_lt_trans; eassumption).
  apply Qpower_lt_compat_l_inv in Hlt; [lia|reflexivity].
Qed.

Lemma Qlog2_ge (x : Q) (k : Z) : 2 ^ k <= x -> (k <= Qlog2 x)%Z.
Proof.
  intros Hk.
  assert (Hx : 0 < x) by (eapply Qlt_le_trans; [apply two_pos|exact Hk]).
  destruct (Qlog2_spec x Hx) as [_ Hhigh].
  assert (Hlt : 2 ^ k < 2 ^ (Qlog2 x + 1)) by (eapply Qle_lt_trans; eassumption).
  apply Qpower_lt_compat_l_inv in Hlt; [lia|reflexivity].
Qed.

Lemma round_half_even_le (y : Q) (N : Z) :
  y <= inject_Z N -> (round_half_even y <= N)%Z.
Proof.
  intros Hy. unfold round_half_even.
  assert (Hf : (Qfloor y <= N)%Z).
  { rewrite <- (Qfloor_Z N). now apply Qfloor_resp_le. }
  destruct (Qcompare_spec (y - inject_Z (Qfloor y)) (1 # 2)) as [Heq|Hlt|Hgt].
  - destruct (Z.eq_dec (Qfloor y) N) as [E|Hne]; [|destruct (Z.even _); lia].
    rewrite E in Heq. lra.
  - exact Hf.
  - destruct (Z.eq_dec (Qfloor y) N) as [E|Hne]; [|lia].
    rewrite E in Hgt. lra.
Qed.

Lemma round_half_even_ge (y : Q) (N : Z) :
  inject_Z N <= y -> (N <= round_half_even y)%Z.
Proof.
  intros Hy. unfold round_half_even.
  assert (Hf : (N <= Qfloor y)%Z).
  { rewrite <- (Qfloor_Z N). now apply Qfloor_resp_le. }
  destruct (Qcompare _ _); [destruct (Z.even _)| |]; lia.
Qed.

Lemma round_half_even_below (y : Q) (N : Z) :
  y < inject_Z N - (1 # 2) -> (round_half_even y <= N - 1)%Z.
Proof.
  intros Hy. unfold round_half_even.
  pose proof (Qfloor_le y) as Hfl.
  assert (Hf : (Qfloor y < N)%Z) by (rewrite Zlt_Qlt; lra).
  assert (Hcase : (Qfloor y < N - 1)%Z \/ y - inject_Z (Qfloor y) < 1 # 2).
  { destruct (Z.eq_dec (Qfloor y) (N - 1)%Z) as [E|Hne]; [right|left; lia].
    rewrite E. unfold Z.sub. rewrite inject_Z_plus, inject_Z_opp.
    change (inject_Z 1) with 1. lra. }
  destruct (Qcompare_spec (y - inject_Z (Qfloor y)) (1 # 2)) as [Heq|Hlt|Hgt].
  - destruct Hcase as [Hlt|Hlt]; [destruct (Z.even _); lia|]. lra.
  - lia.
  - destruct Hcase as [Hlt|Hlt]; [lia|]. lra.
Qed.

Lemma Qred_idempotent (q : Q) : Qred (Qred q) = Qred q.
Proof. apply Qred_complete, Qred_correct. Qed.

Lemma Qred_inject_Z (c : Z) : Qred (inject_Z c) = inject_Z c.
Proof.
  unfold Qred, inject_Z.
  pose proof (Z.ggcd_gcd c 1) as Hg.
  pose proof (Z.ggcd_correct_divisors c 1) as Hd.
  destruct (Z.ggcd c 1) as [g [n d]]. cbn [fst snd] in *.
  rewrite Z.gcd_1_r in Hg. subst g. destruct Hd as [Hn Hd].
  rewrite Z.mul_1_l in Hn, Hd. now subst.
Qed.

Lemma Qabs_pos_eq (x : Q) : 0 < x -> Qabs x = x.
Proof.
  destruct x as [p q]. unfold Qlt, Qabs. cbn. intros Hp.
  f_equal. apply Z.abs_eq. lia.
Qed.

Lemma ulp_pos x : 0 < ulp x.
Proof. apply two_pos. Qed.

Lemma binary64_finite (x : Q) :
  0 < x ->
  0 <= inject_Z (round_half_even (x / ulp x)) * ulp x ->
  inject_Z (round_half_even (x / ulp x)) * ulp x < 2 ^ 1024 ->
  binary64 x = Finite (Qred (inject_Z (round_half_even (x / ulp x)) * ulp x)).
Proof.
  intros Hx Hlow Hhigh. unfold binary64. fold (ulp x).
  destruct (Qeq_bool x 0) eqn:E0.
  { apply Qeq_bool_iff in E0. rewrite E0 in Hx. discriminate Hx. }
  cbv zeta.
  set (y := inject_Z (round_half_even (x / ulp x)) * ulp x) in *.
  destruct (Qle_bool (2 ^ 1024) y) eqn:E1.
  { apply Qle_bool_iff in E1. exfalso. apply (Qlt_irrefl y).
    eapply Qlt_le_trans; eassumption. }
  destruct (Qle_bool y (- 2 ^ 1024)) eqn:E2; [|reflexivity].
  apply Qle_bool_iff in E2. exfalso.
  pose proof (two_pos 1024) as Hp. lra.
Qed.

(** The grid of a positive number below [2^53] holds the integers. *)
Lemma ulp_scale (x : Q) :
  0 < x -> x < 2 ^ 53 ->
  exists M : Z, (0 < M)%Z /\ ulp x * inject_Z M == 1.
Proof.
  intros Hx Hlt. unfold ulp. rewrite (Qabs_pos_eq x Hx).
  pose proof (Qlog2_le x 52 Hx Hlt) as Hle.
  set (e := Z.max (Qlog2 x) (-1022)).
  assert (He : (-1022 <= e <= 52)%Z) by (unfold e; lia).
  exists (2 ^ (52 - e))%Z. split; [apply Z.pow_pos_nonneg; lia|].
  rewrite two_Z by lia. rewrite <- two_plus.
  replace (e - 52 + (52 - e))%Z with 0%Z by lia. reflexivity.
Qed.

Lemma binary64_between (x : Q) (a b : Z) :
  (0 <= a)%Z -> (b <= 2 ^ 52)%Z ->
  inject_Z a <= x -> x <= inject_Z b ->
  exists y, binary64 x = Finite y /\ Qred y = y
            /\ inject_Z a <= y /\ y <= inject_Z b.
Proof.
  intros Ha Hb Hax Hxb.
  assert (Ha' : 0 <= inject_Z a) by (now rewrite <- (Zle_Qle 0)).
  destruct (Qeq_bool x 0) eqn:E0.
  { exists 0. unfold binary64. rewrite E0. split; [reflexivity|].
    split; [reflexivity|].
    apply Qeq_bool_iff in E0. rewrite E0 in *. split; assumption. }
  assert (Hx : 0 < x).
  { apply Qle_lteq in Ha'. apply Qle_lteq in Hax.
    destruct Hax as [Hlt|Heq], Ha' as [Hlt'|Heq'].
    - eapply Qlt_trans; eassumption.
    - now rewrite Heq'.
    - now rewrite <- Heq.
    - exfalso. apply Qeq_bool_neq in E0. apply E0. now rewrite <- Heq, <- Heq'. }
  assert (Hb' : inject_Z b <= 2 ^ 52).
  { rewrite <- two_Z by lia. now rewrite <- Zle_Qle. }
  assert (H53 : x < 2 ^ 53).
  { eapply Qle_lt_trans; [exact Hxb|]. eapply Qle_lt_trans; [exact Hb'|].
    apply Qpower_lt_compat_l; [lia|reflexivity]. }
  destruct (ulp_scale x Hx H53) as (M & HM & Hscale).
  pose proof (ulp_pos x) as Hulp.
  assert (HMq : 0 < inject_Z M) by (now rewrite <- (Zlt_Qlt 0)).
  assert (Hdiv : x / ulp x == x * inject_Z M).
  { unfold Qdiv. apply Qmult_comp; [reflexivity|].
    symmetry. apply Qmult_inj_l with (ulp x); [lra|].
    rewrite Hscale, Qmult_inv_r; [reflexivity|lra]. }
  assert (Hlo : (a * M <= round_half_even (x / ulp x))%Z).
  { apply round_half_even_ge. rewrite Hdiv, inject_Z_mult.
    apply Qmult_le_compat_r; [exact Hax|lra]. }
  assert (Hhi : (round_half_even (x / ulp x) <= b * M)%Z).
  { apply round_half_even_le. rewrite Hdiv, inject_Z_mult.
    apply Qmult_le_compat_r; [exact Hxb|lra]. }
  set (n := round_half_even (x / ulp x)) in *.
  assert (Hya : inject_Z a <= inject_Z n * ulp x).
  { setoid_replace (inject_Z a) with (inject_Z (a * M) * ulp x)
      using relation Qeq by (rewrite inject_Z_mult, <- Qmult_assoc, (Qmult_comm (inject_Z M)), Hscale; ring).
    apply Qmult_le_compat_r; [now rewrite <- Zle_Qle|lra]. }
  assert (Hyb : inject_Z n * ulp x <= inject_Z b).
  { setoid_replace (inject_Z b) with (inject_Z (b * M) * ulp x)
      using relation Qeq by (rewrite inject_Z_mult, <- Qmult_assoc, (Qmult_comm (inject_Z M)), Hscale; ring).
    apply Qmult_le_compat_r; [now rewrite <- Zle_Qle|lra]. }
  exists (Qred (inject_Z n * ulp x)).
  split; [|split; [apply Qred_idempotent|rewrite Qred_correct; split; assumption]].
  apply binary64_finite; [exact Hx|eapply Qle_trans; eassumption|].
  eapply Qle_lt_trans; [exact Hyb|]. eapply Qle_lt_trans; [exact Hb'|].
  apply Qpower_lt_compat_l; [lia|reflexivity].
Qed.

Lemma binary64_below (x : Q) (n k : Z) :
  (0 <= k <= 51)%Z -> (2 ^ k < n)%Z -> (n < 2 ^ (k + 1))%Z ->
  0 <= x -> x <= inject_Z n * (1 - (1 # 9007199254740992)) ->
  exists y, binary64 x = Finite y /\ 0 <= y /\ y < inject_Z n.
Proof.
  intros Hk Hn1 Hn2 Hx0 Hxn.
  assert (Hpow : (0 < 2 ^ k)%Z) by (apply Z.pow_pos_nonneg; lia).
  assert (Hnq : inject_Z (2 ^ k) < inject_Z n) by (now rewrite <- Zlt_Qlt).
  assert (Hnq2 : inject_Z n < 2 ^ (k + 1)).
  { rewrite <- two_Z by lia. now rewrite <- Zlt_Qlt. }
  assert (Hnpos : 0 < inject_Z n) by (rewrite <- (Zlt_Qlt 0); lia).
  destruct (Qlt_le_dec x (2 ^ k)) as [Hsmall|Hbig].
  - destruct (binary64_between x 0 (2 ^ k)) as (y & Hy & _ & Hy0 & Hyk).
    + lia.
    + apply Z.pow_le_mono_r; lia.
    + exact Hx0.
    + rewrite two_Z by lia. now apply Qlt_le_weak.
    + exists y. split; [exact Hy|]. split; [exact Hy0|].
      eapply Qle_lt_trans; eassumption.
  - assert (Hx : 0 < x) by (eapply Qlt_le_trans; [apply (two_pos k)|exact Hbig]).
    assert (Hxlt : x < inject_Z n) by lra.
    assert (Hlog : Qlog2 x = k).
    { apply Z.le_antisymm; [apply Qlog2_le; [exact Hx|]|now apply Qlog2_ge].
      eapply Qlt_trans; eassumption. }
    assert (Hulp : ulp x = 2 ^ (k - 52)).
    { unfold ulp. rewrite (Qabs_pos_eq x Hx), Hlog. f_equal. lia. }
    set (M := (2 ^ (52 - k))%Z).
    assert (HM : (0 < M)%Z) by (apply Z.pow_pos_nonneg; lia).
    assert (HMq : 0 < inject_Z M) by (now rewrite <- (Zlt_Qlt 0)).
    assert (Hscale : ulp x * inject_Z M == 1).
    { rewrite Hulp. unfold M. rewrite two_Z by lia. rewrite <- two_plus.
      replace (k - 52 + (52 - k))%Z with 0%Z by lia. reflexivity. }
    pose proof (ulp_pos x) as Hupos.
    assert (Hdiv : x / ulp x == x * inject_Z M).
    { unfold Qdiv. apply Qmult_comp; [reflexivity|].
      symmetry. apply Qmult_inj_l with (ulp x); [lra|].
      rewrite Hscale, Qmult_inv_r; [reflexivity|lra]. }
    assert (Hbig52 : 4503599627370496 < inject_Z (n * M)).
    { change 4503599627370496 with (inject_Z (2 ^ 52)). rewrite <- Zlt_Qlt.
      replace (2 ^ 52)%Z with (2 ^ k * M)%Z
        by (unfold M; rewrite <- Z.pow_add_r by lia; f_equal; lia).
      apply Z.mul_lt_mono_pos_r; assumption. }
    assert (Hscaled : x * inject_Z M
                      <= inject_Z (n * M) * (1 - (1 # 9007199254740992))).
    { rewrite inject_Z_mult.
      setoid_replace (inject_Z n * inject_Z M * (1 - (1 # 9007199254740992)))
        with (inject_Z n * (1 - (1 # 9007199254740992)) * inject_Z M) using relation Qeq by ring.
      apply Qmult_le_compat_r; [exact Hxn|lra]. }
    assert (Hhi : (round_half_even (x / ulp x) <= n * M - 1)%Z).
    { apply round_half_even_below. rewrite Hdiv.
      set (N := inject_Z (n * M)) in *. lra. }
    assert (Hlo : (0 <= round_half_even (x / ulp x))%Z).
    { apply round_half_even_ge. rewrite Hdiv.
      apply Qmult_le_0_compat; lra. }
    set (r := round_half_even (x / ulp x)) in *.
    assert (Hy0 : 0 <= inject_Z r * ulp x).
    { apply Qmult_le_0_compat; [now rewrite <- (Zle_Qle 0)|lra]. }
    assert (Hyn : inject_Z r * ulp x < inject_Z n).
    { apply Qle_lt_trans with (inject_Z (n * M - 1) * ulp x).
      - apply Qmult_le_compat_r; [now rewrite <- Zle_Qle|lra].
      - unfold Z.sub. rewrite inject_Z_plus, inject_Z_mult, inject_Z_opp.
        change (inject_Z 1) with 1.
        setoid_replace ((inject_Z n * inject_Z M + - 1) * ulp x)
          with (inject_Z n * (ulp x * inject_Z M) - ulp x) using relation Qeq by ring.
        rewrite Hscale. lra. }
    exists (Qred (inject_Z r * ulp x)).
    split; [|rewrite Qred_correct; split; assumption].
    apply binary64_finite; [exact Hx|exact Hy0|].
    eapply Qlt_trans; [exact Hyn|]. eapply Qlt_le_trans; [exact Hnq2|].
    apply Qpower_le_compat_l; [lia|discriminate 1].
Qed.

(** Whole numbers up to [2^52] are binary64 numbers. *)
Lemma binary64_integer (x : Q) (c : Z) :
  (0 <= c <= 2 ^ 52)%Z -> x == inject_Z c -> binary64 x = of_Z c.
Proof.
  intros Hc Hx.
  destruct (binary64_between x c c) as (y & -> & Hred & Hlow & Hhigh);
    [lia|lia|rewrite Hx; apply Qle_refl|rewrite Hx; apply Qle_refl|].
  unfold of_Z. f_equal. rewrite <- Hred.
  rewrite (Qred_complete y (inject_Z c)) by (now apply Qle_antisym).
  apply Qred_inject_Z.
Qed.

(** The cooldown test gives the same answer on the rounded quotient as on
    the exact one, for a clock that has not gone back. *)
Lemma canSendPumpCommand_rounded (currentTime last : Z) :
  (0 <= currentTime - last <= 2 ^ 52)%Z ->
  canSendPumpCommand currentTime last
  = negb (number_lt (binary64 (inject_Z (currentTime - last) / 1000))
            (of_Z PUMP_COOLDOWN_SECONDS)).
Proof.
  intros Hd. rewrite canSendPumpCommand_spec. unfold PUMP_COOLDOWN_SECONDS.
  set (d := (currentTime - last)%Z) in *.
  assert (Hdq : 0 <= inject_Z d) by (rewrite <- (Zle_Qle 0); lia).
  destruct (Z.leb_spec (1000 * 30) d) as [Hbig|Hsmall].
  - destruct (binary64_between (inject_Z d / 1000) 30 d)
      as (y & -> & _ & Hlow & _); [lia|lia| | |].
    + apply Qle_shift_div_l; [reflexivity|].
      change (inject_Z 30 * 1000) with (inject_Z 30000). rewrite <- Zle_Qle. lia.
    + apply Qle_shift_div_r; [reflexivity|]. lra.
    + unfold number_lt, of_Z.
      destruct (Qlt_le_dec y (inject_Z 30)) as [Hlt|]; [|reflexivity].
      exfalso. lra.
  - destruct (binary64_below (inject_Z d / 1000) 30 4)
      as (y & -> & _ & Hlt); [lia|reflexivity|reflexivity| | |].
    + apply Qle_shift_div_l; [reflexivity|]. lra.
    + apply Qle_shift_div_r; [reflexivity|].
      apply Qle_trans with (inject_Z 29999); [rewrite <- Zle_Qle; lia|].
      discriminate 1.
    + unfold number_lt, of_Z.
      destruct (Qlt_le_dec y (inject_Z 30)) as [|Hle]; [reflexivity|].
      exfalso. lra.
Qed.

End Binary64.

(** ** The simulators and the automation *)

Lemma number_lt_of_Z a b : number_lt (of_Z a) (of_Z b) = (a <? b)%Z.
Proof.
  unfold number_lt, of_Z.
  destruct (Qlt_le_dec (inject_Z a) (inject_Z b)) as [Hlt|Hle].
  - symmetry. apply Z.ltb_lt. now rewrite Zlt_Qlt.
  - symmetry. apply Z.ltb_ge. now rewrite Zle_Qle.
Qed.

(** The whole part of the product of a random number and a whole
    number [n]: at most [n] in general, and less than [n] for a random
    number that is a binary64 number below 1, when [n] is not a power of
    two. *)
Lemma floor_of_product (r : Q) (n : Z) :
  (0 <= n <= 2 ^ 52)%Z -> (0 <= r)%Q -> (r <= 1)%Q ->
  exists m, Math_floor (number_mul (Finite r) (of_Z n)) = of_Z m
            /\ (0 <= m <= n)%Z.
Proof.
  intros Hn H0 H1.
  assert (Hnq : (0 <= inject_Z n)%Q) by (rewrite <- (Zle_Qle 0); lia).
  destruct (binary64_between (r * inject_Z n) 0 n) as (y & Hy & _ & Hy0 & Hyn);
    [lia|lia|now apply Qmult_le_0_compat| |].
  { rewrite <- (Qmult_1_l (inject_Z n)) at 2. now apply Qmult_le_compat_r. }
  exists (Qfloor y). unfold number_mul, of_Z at 1. rewrite Hy. cbn [Math_floor].
  split; [reflexivity|]. split.
  - rewrite <- (Qfloor_Z 0). now apply Qfloor_resp_le.
  - rewrite <- (Qfloor_Z n). now apply Qfloor_resp_le.
Qed.

Lemma floor_of_random_product (r : Q) (n k : Z) :
  (0 <= k <= 51)%Z -> (2 ^ k < n)%Z -> (n < 2 ^ (k + 1))%Z ->
  (0 <= r)%Q -> (r <= 1 - (1 # 9007199254740992))%Q ->
  exists m, Math_floor (number_mul (Finite r) (of_Z n)) = of_Z m
            /\ (0 <= m <= n - 1)%Z.
Proof.
  intros Hk Hn1 Hn2 H0 H1.
  assert (Hpow : (0 < 2 ^ k)%Z) by (apply Z.pow_pos_nonneg; lia).
  assert (Hnq : (0 < inject_Z n)%Q) by (rewrite <- (Zlt_Qlt 0); lia).
  destruct (binary64_below (r * inject_Z n) n k Hk Hn1 Hn2) as (y & Hy & Hy0 & Hyn).
  { apply Qmult_le_0_compat; [exact H0|now apply Qlt_le_weak]. }
  { rewrite (Qmult_comm r). apply Qmult_le_l; assumption. }
  exists (Qfloor y). unfold number_mul, of_Z at 1. rewrite Hy. cbn [Math_floor].
  split; [reflexivity|]. split.
  - rewrite <- (Qfloor_Z 0). now apply Qfloor_resp_le.
  - assert (Hlt : (Qfloor y < n)%Z); [|lia].
    rewrite Zlt_Qlt. eapply Qle_lt_trans; [apply Qfloor_le|exact Hyn].
Qed.

(** Sums of whole numbers up to [2^52] are exact. *)
Lemma number_add_of_Z (a b : Z) :
  (0 <= a + b <= 2 ^ 52)%Z -> number_add (of_Z a) (of_Z b) = of_Z (a + b).
Proof.
  intros Hab. unfold number_add, of_Z at 1 2.
  apply binary64_integer; [exact Hab|]. now rewrite inject_Z_plus.
Qed.

Section SimulatorPayloads.
Variable toFixed1 : number -> string.

(** X15. The first simulator publishes a moisture that is a whole
    number from 0 to 99 and a pump status that is ON or OFF, ON exactly
    when its second random number exceeds one half. The random numbers
    are binary64 numbers below 1: at most 1 - 2^-53. *)
Theorem X15_simulator1_ranges (random1 random2 : Q) :
  (0 <= random1)%Q -> (random1 <= 1 - (1 # 9007199254740992))%Q ->
  exists soilMoisture pumpStatus,
    simulator1_payload random1 random2
    = JObj [("soilMoisture", JNum (of_Z soilMoisture));
            ("pumpStatus", JStr pumpStatus)]
    /\ (0 <= soilMoisture <= 99)%Z
    /\ (pumpStatus = "ON" \/ pumpStatus = "OFF")
    /\ (pumpStatus = "ON" <-> (1 # 2 < random2)%Q).
Proof.
  intros H0 H1. unfold simulator1_payload. cbv zeta.
  destruct (floor_of_random_product random1 100 6) as (m & -> & Hm);
    [lia|reflexivity|reflexivity|exact H0|exact H1|].
  exists m. eexists. split; [reflexivity|].
  split; [lia|].
  unfold number_lt. destruct (Qlt_le_dec (1 # 2) random2) as [Hlt|Hle].
  - split; [now left|]. split; auto.
  - split; [now right|]. split; [discriminate 1|].
    intros Hlt. exfalso. revert Hle. now apply Qlt_not_le.
Qed.

(** X16. The second simulator publishes a moisture that is a whole
    number from 300 to 900, a humidity that is a whole number from 40 to
    95, the temperature as the text of a number from 15 to 35, both
    included, and a pump status that is ON exactly when the moisture is
    above 700 and OFF otherwise. The random numbers are binary64 numbers
    below 1: at most 1 - 2^-53. *)
Theorem X16_simulator2_ranges (random1 random2 random3 : Q) :
  (0 <= random1)%Q -> (random1 <= 1 - (1 # 9007199254740992))%Q ->
  (0 <= random2)%Q -> (random2 <= 1 - (1 # 9007199254740992))%Q ->
  (0 <= random3)%Q -> (random3 <= 1 - (1 # 9007199254740992))%Q ->
  exists soilMoisture celsius humidity,
    simulator2_payload toFixed1 random1 random2 random3
    = JObj [("soilMoisture", JNum (of_Z soilMoisture));
            ("pumpStatus", JStr (if (700 <? soilMoisture)%Z then "ON" else "OFF"));
            ("temperature", JStr (toFixed1 (Finite celsius)));
            ("humidity", JNum (of_Z humidity))]
    /\ (300 <= soilMoisture <= 900)%Z
    /\ (15 <= celsius)%Q /\ (celsius <= 35)%Q
    /\ (40 <= humidity <= 95)%Z.
Proof.
  intros H10 H11 H20 H21 H30 H31. unfold simulator2_payload. cbv zeta.
  change (900 - 300 + 1)%Z with 601%Z.
  change (35 - 15)%Z with 20%Z.
  change (95 - 40 + 1)%Z with 56%Z.
  destruct (floor_of_random_product random1 601 9) as (m & -> & Hm);
    [lia|reflexivity|reflexivity|exact H10|exact H11|].
  destruct (floor_of_random_product random3 56 5) as (h & -> & Hh);
    [lia|reflexivity|reflexivity|exact H30|exact H31|].
  rewrite !number_add_of_Z by lia.
  destruct (binary64_between (random2 * inject_Z 20) 0 20)
    as (y1 & Hy1 & _ & Hy10 & Hy120); [lia|lia| | |].
  { apply Qmult_le_0_compat; [exact H20|discriminate 1]. }
  { change (inject_Z 20) with 20%Q. lra. }
  destruct (binary64_between (y1 + inject_Z 15) 15 35)
    as (y2 & Hy2 & _ & Hy215 & Hy235); [lia|lia| | |].
  { change (inject_Z 0) with 0%Q in Hy10. lra. }
  { change (inject_Z 20) with 20%Q in Hy120.
    change (inject_Z 15) with 15%Q. change (inject_Z 35) with 35%Q. lra. }
  exists (m + 300)%Z, y2, (h + 40)%Z.
  split.
  - rewrite number_lt_of_Z.
    unfold number_mul, of_Z at 2. rewrite Hy1.
    unfold number_add, of_Z at 2. rewrite Hy2. reflexivity.
  - split; [lia|]. split; [exact Hy215|]. split; [exact Hy235|lia].
Qed.

Section SimulatedMessages.
Context `{Host}.

(** A moisture above the dry threshold is not below the wet one. *)
Lemma number_lt_thresholds n :
  number_lt MOISTURE_DRY_THRESHOLD n = true ->
  number_lt n MOISTURE_WET_THRESHOLD = false.
Proof.
  unfold MOISTURE_DRY_THRESHOLD, MOISTURE_WET_THRESHOLD, of_Z, number_lt.
  destruct n as [| | |y]; try reflexivity; try discriminate 1.
  destruct (Qlt_le_dec (inject_Z 700) y) as [Hdry|]; [|discriminate 1].
  intros _. destruct (Qlt_le_dec y (inject_Z 400)) as [Hwet|]; [|reflexivity].
  exfalso. change (inject_Z 700) with 700%Q in Hdry.
  change (inject_Z 400) with 400%Q in Hwet. lra.
Qed.

(** X17. A message of the first simulator never turns the pump on: its
    moisture is below both thresholds. With the cooldown elapsed the
    handler publishes TURN_PUMP_OFF when the simulated pump status is ON
    and nothing when it is OFF. *)
Theorem X17_simulator1_only_turns_pump_off
    (random1 random2 : Q) message tDate now st :
  (0 <= random1)%Q -> (random1 < 1)%Q ->
  JSON_parse message = Some (simulator1_payload random1 random2) ->
  (30000 <= now - lastPumpCommandTime st)%Z ->
  published (trace_of (client_on_message SENSOR_DATA_TOPIC message tDate now st))
  = if number_lt (Finite (1 # 2)) (Finite random2) then [TURN_PUMP_OFF] else [].
Proof.
  intros H0 H1 Hparse Helapsed.
  destruct (floor_of_product random1 100) as (m & Hfloor & Hm);
    [lia|exact H0|now apply Qlt_le_weak|].
  set (status := if number_lt (Finite (1 # 2)) (Finite random2)
                 then "ON" else "OFF").
  assert (Hlit : sensor_literal (simulator1_payload random1 random2) tDate
                 = inr {| soilMoisture := JNum (of_Z m);
                          pumpStatus := JStr status;
                          temperature := JNull;
                          humidity := JNull;
                          timestamp := Some tDate |}).
  { unfold simulator1_payload, status. cbv zeta. rewrite Hfloor.
    destruct (number_lt _ _); reflexivity. }
  rewrite (published_accepted _ _ _ _ _ _ Hparse Hlit).
  replace (canSendPumpCommand now (lastPumpCommandTime st)) with true
    by (symmetry; now apply canSendPumpCommand_elapsed).
  rewrite published_decision. cbn [soilMoisture pumpStatus ToNumber].
  unfold MOISTURE_DRY_THRESHOLD, MOISTURE_WET_THRESHOLD.
  rewrite !number_lt_of_Z.
  replace (700 <? m)%Z with false by (symmetry; apply Z.ltb_ge; lia).
  replace (m <? 400)%Z with true by (symmetry; apply Z.ltb_lt; lia).
  unfold status. destruct (number_lt _ _); reflexivity.
Qed.

(** X18. A message of the second simulator never makes the automation
    publish a command, at any time and in any state: it reports the pump
    ON exactly when its moisture is above the dry threshold, so neither
    "dry and OFF" nor "wet and ON" ever holds. *)
Theorem X18_simulator2_never_commands
    (random1 random2 random3 : Q) message tDate now st :
  JSON_parse message = Some (simulator2_payload toFixed1 random1 random2 random3) ->
  published (trace_of (client_on_message SENSOR_DATA_TOPIC message tDate now st))
  = [].
Proof.
  intros Hparse.
  set (m := number_add
              (Math_floor (number_mul (Finite random1) (of_Z (900 - 300 + 1))))
              (of_Z 300)).
  set (status := if number_lt (of_Z 700) m then "ON" else "OFF").
  destruct (sensor_literal (simulator2_payload toFixed1 random1 random2 random3) tDate)
    as [e|r] eqn:Hlit.
  { now rewrite (client_on_message_no_reading _ _ _ _ _ _ Hparse Hlit). }
  destruct (sensor_literal_status _ _ _ Hlit) as [Hsoil Hstatus].
  assert (Hm : soilMoisture r = JNum m) by exact Hsoil.
  assert (Hs : pumpStatus r = JStr status).
  { rewrite Hstatus. unfold simulator2_payload, field. cbv zeta.
    cbn [get_prop lookup_prop]. fold m. fold status.
    unfold status. destruct (number_lt (of_Z 700) m); reflexivity. }
  rewrite (published_accepted _ _ _ _ _ _ Hparse Hlit).
  destruct (canSendPumpCommand _ _); [|reflexivity].
  rewrite published_decision, Hm, Hs. cbn [ToNumber].
  unfold status.
  destruct (number_lt MOISTURE_DRY_THRESHOLD m) eqn:Hdry.
  - rewrite (number_lt_thresholds m Hdry).
    change (number_lt (of_Z 700) m) with (number_lt MOISTURE_DRY_THRESHOLD m).
    rewrite Hdry. reflexivity.
  - change (number_lt (of_Z 700) m) with (number_lt MOISTURE_DRY_THRESHOLD m).
    rewrite Hdry.
    replace (strict_eq_string (JStr "OFF") "ON") with false by reflexivity.
    now rewrite andb_false_r.
Qed.

End SimulatedMessages.
End SimulatorPayloads.

(** The first simulator rounds as the processor does: for the binary64
    number nearest to 0.15 it publishes the moisture 15, although the
    whole part of the exact product is 14. *)
Remark simulator1_rounds_the_product :
  simulator1_payload (5404319552844595 # 36028797018963968) (3 # 4)
  = JObj [("soilMoisture", JNum (of_Z 15)); ("pumpStatus", JStr "ON")]
  /\ Qfloor ((5404319552844595 # 36028797018963968) * 100) = 14%Z.
Proof. split; vm_compute; reflexivity. Qed.

(** The temperature of the second simulator reaches 35: for the largest
    binary64 number below 1 the sum is a tie, which rounds to 35. *)
Remark simulator2_temperature_reaches_35 :
  number_add
    (number_mul (Finite (1 - (1 # 9007199254740992))) (of_Z (35 - 15)))
    (of_Z 15)
  = of_Z 35.
Proof. vm_compute. reflexivity. Qed.


(** ** Messages that yield no reading, and the times of those that do *)

Lemma Forall_sublist {A} (P : A -> Prop) (l k : list A) :
  sublist l k -> Forall P k -> Forall P l.
Proof.
  induction 1 as [|x l k _ IH|x l k _ IH]; intros Hk; [constructor| |].
  - inversion Hk; subst. constructor; auto.
  - inversion Hk; subst. auto.
Qed.

Lemma StronglySorted_sublist {A} (R : relation A) (l k : list A) :
  sublist l k -> StronglySorted R k -> StronglySorted R l.
Proof.
  induction 1 as [|x l k Hsub IH|x l k _ IH]; intros Hk; [constructor| |].
  - inversion Hk; subst. constructor; [auto|].
    eapply Forall_sublist; eauto.
  - inversion Hk; subst. auto.
Qed.

Lemma omap_sublist {A B} (f : A -> option B) (l k : list A) :
  sublist l k -> sublist (omap f l) (omap f k).
Proof.
  induction 1 as [|x l k _ IH|x l k _ IH]; cbn.
  - constructor.
  - destruct (f x); [now apply sublist_skip|exact IH].
  - destruct (f x); [now apply sublist_cons|exact IH].
Qed.

Section Dates.
Context `{Host}.

Lemma sensor_literal_timestamp data tDate r :
  sensor_literal data tDate = inr r -> timestamp r = Some tDate.
Proof.
  unfold sensor_literal.
  destruct (get_prop data "soilMoisture") as [e|soil]; [discriminate 1|].
  destruct (get_prop data "pumpStatus") as [e|status]; [discriminate 1|].
  destruct (get_prop data "temperature") as [e|tv]; [discriminate 1|].
  cbn [bindE].
  destruct (if negb (is_undefined tv) then _ else _) as [e|temp];
    [discriminate 1|].
  destruct (get_prop data "humidity") as [e|hv]; [discriminate 1|].
  cbn [bindE].
  destruct (if negb (is_undefined hv) then _ else _) as [e|hum];
    [discriminate 1|].
  cbn [bindE]. intros [= <-]; reflexivity.
Qed.

Lemma accepted_reading_date e r :
  accepted_reading e = Some r ->
  exists tDate, event_date e = Some tDate /\ timestamp r = Some tDate.
Proof.
  destruct e as [topic message tDate currentTime| | | | | |];
    try discriminate 1. cbn [accepted_reading event_date].
  destruct (String.eqb topic SENSOR_DATA_TOPIC); [|discriminate 1].
  destruct (JSON_parse message) as [data|]; [|discriminate 1].
  destruct (sensor_literal data tDate) as [e|r'] eqn:Hlit; [discriminate 1|].
  intros [= <-]. exists tDate. split; [reflexivity|].
  now apply sensor_literal_timestamp in Hlit.
Qed.

Lemma accepted_dates events :
  Forall (fun r => exists t, timestamp r = Some t) (accepted events)
  /\ sublist (omap timestamp (accepted events)) (omap event_date events).
Proof.
  induction events as [|e events [IHall IHsub]]; [split; constructor|].
  rewrite accepted_cons.
  destruct (accepted_reading e) as [r|] eqn:Hacc.
  - destruct (accepted_reading_date e r Hacc) as (t & Hdate & Hstamp).
    change (option_list (Some r) ++ accepted events) with (r :: accepted events).
    simpl omap. rewrite Hdate, Hstamp. split.
    + constructor; eauto.
    + now apply sublist_skip.
  - change (option_list None ++ accepted events) with (accepted events).
    split; [exact IHall|]. simpl omap.
    destruct (event_date e); [now apply sublist_cons|exact IHsub].
Qed.

(** X19. A message on another topic, a message whose payload does not
    parse, and a message whose payload is [null] are all dropped in the
    same way: the handler returns without throwing, the state is as
    before, nothing is published and nothing answered; the only effects
    are console lines. *)
Theorem X19_message_without_reading_is_dropped
    topic message tDate currentTime st :
  String.eqb topic SENSOR_DATA_TOPIC = false
  \/ JSON_parse message = None
  \/ JSON_parse message = Some JNull ->
  let res := client_on_message topic message tDate currentTime st in
  result_of res = inr tt
  /\ state_of res = st
  /\ published (trace_of res) = []
  /\ Forall is_console (trace_of res).
Proof.
  intros Hcase. cbv zeta.
  assert (Hacc : accepted_reading (ev_message topic message tDate currentTime) = None).
  { cbn [accepted_reading].
    destruct Hcase as [-> | [-> | ->]]; [reflexivity| |];
      now destruct (String.eqb topic SENSOR_DATA_TOPIC). }
  destruct (handle_message_not_accepted _ _ _ _ st Hacc) as (Hres & Hst & Hpub).
  repeat (split; [assumption|]).
  destruct (JSON_parse message) as [data|] eqn:Hparse.
  2:{ rewrite client_on_message_unparsable by assumption. repeat constructor. }
  destruct (String.eqb topic SENSOR_DATA_TOPIC) eqn:Htopic.
  2:{ erewrite client_on_message_other_topic by eassumption. repeat constructor. }
  apply String.eqb_eq in Htopic. subst topic.
  destruct Hcase as [Hc | [Hc | Hc]]; try discriminate Hc.
  injection Hc as ->.
  erewrite client_on_message_no_reading by (eassumption || reflexivity).
  repeat constructor.
Qed.

Lemma accepted_timestamps events :
  map timestamp (accepted events) = map Some (omap accepted_date events).
Proof.
  induction events as [|e events IH]; [reflexivity|].
  rewrite accepted_cons.
  change (omap accepted_date (e :: events))
    with (match accepted_date e with
          | Some t => t :: omap accepted_date events
          | None => omap accepted_date events
          end).
  destruct (accepted_reading e) as [r|] eqn:Hacc.
  - destruct (accepted_reading_date e r Hacc) as (t & Hdate & Hstamp).
    assert (Had : accepted_date e = Some t).
    { unfold accepted_date. now rewrite Hacc. }
    rewrite Had.
    change (option_list (Some r) ++ accepted events) with (r :: accepted events).
    cbn [map]. now rewrite Hstamp, IH.
  - assert (Had : accepted_date e = None).
    { unfold accepted_date. now rewrite Hacc. }
    rewrite Had. exact IH.
Qed.

(** X20. The timestamps of the history are the times at which the last
    200 accepted messages were ingested, one entry for each of these
    messages and in their order of arrival: when the clock read by the
    successive messages never goes back, the timestamps of the history
    never decrease. *)
Theorem X20_history_timestamps_follow_the_clock (events : list Event) :
  let st := (run events initial_state).1 in
  let dates := omap accepted_date events in
  map timestamp (history st) = map Some (drop (length dates - 200) dates)
  /\ (StronglySorted Z.le (omap event_date events) ->
      StronglySorted Z.le (omap timestamp (history st))).
Proof.
  cbv zeta.
  destruct (run_loop_invariant events _ [] initial_state_loop_invariant)
    as (_ & _ & Hhist & _).
  cbn [app] in Hhist. rewrite Hhist.
  destruct (accepted_dates events) as [Hall Hsub].
  split.
  - rewrite <- !skipn_map, accepted_timestamps.
    replace (length (accepted events)) with (length (omap accepted_date events));
      [reflexivity|].
    rewrite <- (length_map Some), <- accepted_timestamps. apply length_map.
  - intros Hsorted.
    eapply StronglySorted_sublist; [|exact Hsorted].
    etransitivity; [|exact Hsub].
    apply omap_sublist, sublist_drop.
Qed.

End Dates.

(** * Further examples *)

(** The snapshot built from the cut-down answer: the fields it lacks
    are [undefined]. *)
Lemma X5_cut_down_answer :
  weather_literal example_weather_answer 7
  = inr {| Weather.temperature := JNum (of_Z 21);
           Weather.feels_like := JUndefined;
           Weather.description := JStr "clear sky";
           Weather.icon := JUndefined;
           Weather.city := JStr "Nairobi";
           Weather.humidity := JUndefined;
           Weather.wind_speed := JNum (of_Z 3);
           Weather.timestamp := Some 7%Z |}.
Proof. exact (X5_snapshot_fields example_weather_answer 7 eq_refl). Defined.

(** The dry reading at time 100000, its publish confirmed: the same
    reading 30 seconds later is published again. *)
Lemma X7_dry_reading_published_again :
  let st1 := state_of (@client_on_message example_host SENSOR_DATA_TOPIC
                         example_dry_message 5 100000 initial_state) in
  let st2 := state_of (@publish_callback example_host (cb_pump_on 100000)
                         None st1) in
  lastPumpCommandTime st2 = 100000%Z
  /\ published
       (trace_of (@client_on_message example_host SENSOR_DATA_TOPIC
                    example_dry_message 6 130000 st2))
     = [TURN_PUMP_ON].
Proof.
  destruct (@X7_confirmed_publish_starts_cooldown example_host
              SENSOR_DATA_TOPIC example_dry_message 5 100000 initial_state
              (JObj [("command", JStr "TURN_PUMP_ON")]) (cb_pump_on 100000)
              6 130000)
    as (Hlast & _ & Hagain).
  - vm_compute. right. right. left. reflexivity.
  - split; [exact Hlast|]. apply Hagain. lia.
Defined.

(** The manual command at time 5000, then the dry reading at time
    20000: nothing is published. *)
Lemma X8_dry_reading_after_manual_command :
  published
    (trace_of (@client_on_message example_host SENSOR_DATA_TOPIC
                 example_dry_message 5 20000
                 (state_of (app_post_command example_command_body 5000 initial_state))))
  = [].
Proof.
  refine (proj1 (@X8_manual_command_silences_automation example_host
                   example_command_body (JStr "TURN_PUMP_ON") 5000
                   initial_state None SENSOR_DATA_TOPIC example_dry_message
                   5 20000 eq_refl eq_refl _)).
  lia.
Defined.

(** The dry reading at time 100000, a manual command at time 105000,
    then the confirmation of the first publish: the command time is
    100000 again. *)
Lemma X9_confirmation_after_manual_command :
  let st1 := state_of (@client_on_message example_host SENSOR_DATA_TOPIC
                         example_dry_message 5 100000 initial_state) in
  let st2 := state_of (app_post_command example_command_body 105000 st1) in
  let st3 := state_of (@publish_callback example_host (cb_pump_on 100000)
                         None st2) in
  lastPumpCommandTime st2 = 105000%Z /\ lastPumpCommandTime st3 = 100000%Z.
Proof.
  destruct (@X9_late_confirmation_overwrites_manual_reset example_host
              SENSOR_DATA_TOPIC example_dry_message 5 100000 initial_state
              (JObj [("command", JStr "TURN_PUMP_ON")]) (cb_pump_on 100000)
              example_command_body (JStr "TURN_PUMP_ON") 105000 6 130000)
    as (H2 & H3 & _).
  - vm_compute. right. right. left. reflexivity.
  - reflexivity.
  - reflexivity.
  - lia.
  - split; assumption.
Defined.

(** The dry reading at time 100000 and again half a second later, with
    no confirmation in between: TURN_PUMP_ON is published twice. *)
Lemma X10_dry_reading_twice :
  published
    (trace_of (@client_on_message example_host SENSOR_DATA_TOPIC
                 example_dry_message 6 100500
                 (state_of (@client_on_message example_host SENSOR_DATA_TOPIC
                              example_dry_message 5 100000 initial_state))))
  = [TURN_PUMP_ON].
Proof.
  refine (proj2 (@X10_no_cooldown_before_confirmation example_host
                   SENSOR_DATA_TOPIC example_dry_message 5 100000
                   initial_state (JObj [("command", JStr "TURN_PUMP_ON")])
                   (cb_pump_on 100000) 6 100500 _ _)).
  - vm_compute. right. right. left. reflexivity.
  - lia.
Defined.



(** The payload [{"soilMoisture":null,"pumpStatus":"ON"}] turns the
    pump off. *)
Lemma X14_null_moisture_example :
  published
    (trace_of (@client_on_message
                 (host_parsing example_null_message example_null_payload)
                 SENSOR_DATA_TOPIC example_null_message 5 100000 initial_state))
  = [TURN_PUMP_OFF].
Proof.
  refine (@X14_null_moisture_counts_as_wet
            (host_parsing example_null_message example_null_payload)
            example_null_message example_null_payload
            {| soilMoisture := JNull;
               pumpStatus := JStr "ON";
               temperature := JNull;
               humidity := JNull;
               timestamp := Some 5%Z |}
            5 100000 initial_state eq_refl eq_refl _ _).
  - left. reflexivity.
  - unfold initial_state. cbn [lastPumpCommandTime]. lia.
Defined.

(** The moisture [{"toString":1}] is recorded, and reported as a
    message that failed to parse. *)
Lemma X21_object_moisture_example :
  trace_of
    (@client_on_message
       (host_parsing example_object_message example_object_payload)
       SENSOR_DATA_TOPIC example_object_message 5 100000 initial_state)
  = [console (log_received SENSOR_DATA_TOPIC example_object_payload);
     console (error_parse example_object_message TypeError)]
  /\ soilMoisture
       (default initial_sensor_data
          (last (history
                   (state_of
                      (@client_on_message
                         (host_parsing example_object_message example_object_payload)
                         SENSOR_DATA_TOPIC example_object_message 5 100000
                         initial_state)))))
     = JObj [("toString", JNum (of_Z 1))].
Proof.
  destruct (@X21_moisture_without_number_is_recorded
              (host_parsing example_object_message example_object_payload)
              example_object_message example_object_payload
              {| soilMoisture := JObj [("toString", JNum (of_Z 1))];
                 pumpStatus := JStr "OFF";
                 temperature := JNull;
                 humidity := JNull;
                 timestamp := Some 5%Z |}
              TypeError 5 100000 initial_state eq_refl eq_refl eq_refl)
    as (Hres & _ & _).
  - unfold initial_state. cbn [lastPumpCommandTime]. lia.
  - rewrite Hres. split; reflexivity.
Defined.

(** The first simulator with the random numbers 1/4 and 3/4. *)
Lemma X15_simulator1_example :
  exists soilMoisture pumpStatus,
    simulator1_payload (1 # 4) (3 # 4)
    = JObj [("soilMoisture", JNum (of_Z soilMoisture));
            ("pumpStatus", JStr pumpStatus)]
    /\ (0 <= soilMoisture <= 99)%Z
    /\ (pumpStatus = "ON" \/ pumpStatus = "OFF")
    /\ (pumpStatus = "ON" <-> (1 # 2 < 3 # 4)%Q).
Proof.
  apply (X15_simulator1_ranges (1 # 4) (3 # 4)); discriminate 1.
Defined.

(** The second simulator with the random numbers 1/2, 27/64 and 1/2. *)
Lemma X16_simulator2_example :
  exists soilMoisture celsius humidity,
    simulator2_payload example_toFixed1 (1 # 2) (27 # 64) (1 # 2)
    = JObj [("soilMoisture", JNum (of_Z soilMoisture));
            ("pumpStatus", JStr (if (700 <? soilMoisture)%Z then "ON" else "OFF"));
            ("temperature", JStr (example_toFixed1 (Finite celsius)));
            ("humidity", JNum (of_Z humidity))]
    /\ (300 <= soilMoisture <= 900)%Z
    /\ (15 <= celsius)%Q /\ (celsius <= 35)%Q
    /\ (40 <= humidity <= 95)%Z.
Proof.
  apply (X16_simulator2_ranges example_toFixed1 (1 # 2) (27 # 64) (1 # 2));
    discriminate 1.
Defined.

(** The message of the first simulator for 1/4 and 3/4 turns the pump
    off. *)
Lemma X17_simulator1_message_example :
  published
    (trace_of (@client_on_message
                 (host_parsing example_simulator1_message
                    (simulator1_payload (1 # 4) (3 # 4)))
                 SENSOR_DATA_TOPIC example_simulator1_message 5 100000
                 initial_state))
  = [TURN_PUMP_OFF].
Proof.
  refine (@X17_simulator1_only_turns_pump_off
            (host_parsing example_simulator1_message
               (simulator1_payload (1 # 4) (3 # 4)))
            (1 # 4) (3 # 4) example_simulator1_message 5 100000 initial_state
            _ _ eq_refl _).
  - discriminate 1.
  - reflexivity.
  - unfold initial_state. cbn [lastPumpCommandTime]. lia.
Defined.

(** The message of the second simulator for 1/2, 27/64 and 1/2
    publishes nothing. *)
Lemma X18_simulator2_message_example :
  published
    (trace_of (@client_on_message
                 (host_parsing example_simulator2_message
                    (simulator2_payload example_toFixed1 (1 # 2) (27 # 64) (1 # 2)))
                 SENSOR_DATA_TOPIC example_simulator2_message 5 100000
                 initial_state))
  = [].
Proof.
  exact (@X18_simulator2_never_commands example_toFixed1
           (host_parsing example_simulator2_message
              (simulator2_payload example_toFixed1 (1 # 2) (27 # 64) (1 # 2)))
           (1 # 2) (27 # 64) (1 # 2) example_simulator2_message 5 100000
           initial_state eq_refl).
Defined.

(** The payload [null] on the sensor topic is dropped. *)
Lemma X19_null_payload_example :
  state_of (@client_on_message (host_parsing "null" JNull) SENSOR_DATA_TOPIC
              "null" 5 100000 initial_state)
  = initial_state.
Proof.
  refine (proj1 (proj2 (@X19_message_without_reading_is_dropped
                          (host_parsing "null" JNull) SENSOR_DATA_TOPIC "null"
                          5 100000 initial_state _))).
  right. right. reflexivity.
Defined.
